(** * artillery-engine-playwright: the metrics pipeline of [src/index.js]

    A shallow embedding of the Playwright engine: the constructor's
    configuration handling, the naming policy [getName], the page event
    handlers ([domcontentloaded], [console], [load], [requestfinished])
    and the [scenario] procedure with its [try]/[catch]/[finally]
    discipline.

    JavaScript numbers are IEEE 754 binary64 values (primitive floats),
    strings are sequences of code units (restricted here to the code units
    below 256), the values that reach the handlers are the JSON-shaped
    values [JSON.parse] produces, and the ledger [uniquePageLoadToTiming]
    is a finite map from property keys to values. *)

From Stdlib Require Import ZArith List String Ascii Lia Floats.
From stdpp Require Import gmap strings.

Local Open Scope string_scope.
Local Open Scope list_scope.
Local Open Scope Z_scope.

(** ** The fragment of ECMAScript the engine relies on *)

Module ES.

(** Values: [undefined], and what [JSON.parse] builds. An object is the
    list of its own properties, the first binding of a key being the
    property's value. *)
#[local] Unset Elimination Schemes.
Inductive value : Type :=
| VUndefined
| VNull
| VBool (b : bool)
| VNumber (x : float)
| VString (s : string)
| VArray (xs : list value)
| VObject (props : list (string * value)).
#[local] Set Elimination Schemes.

(** What a [throw] carries. *)
Inductive exn : Type :=
| TypeError
| SyntaxError
| Thrown (payload : value).

(** The outcome of evaluating an expression. *)
Inductive completion (A : Type) : Type :=
| Normal (a : A)
| Throw (e : exn).
Arguments Normal {A} a.
Arguments Throw {A} e.

Definition bind {A B} (c : completion A) (k : A -> completion B) : completion B :=
  match c with
  | Normal a => k a
  | Throw e => Throw e
  end.

Notation "'let*' x ':=' c 'in' k" := (bind c (fun x => k))
  (at level 10, x name, c at level 100, k at level 200).

(** *** Decimal numerals *)

Definition digit_char (d : Z) : ascii := ascii_of_nat (48 + Z.to_nat d).

Fixpoint dec_aux (fuel : nat) (n : Z) (acc : string) : string :=
  match fuel with
  | O => acc
  | S fuel' =>
      let acc' := String (digit_char (n mod 10)) acc in
      if n <? 10 then acc' else dec_aux fuel' (n / 10) acc'
  end.

(** The decimal numeral of a natural number, without leading zeros. *)
Definition dec (n : Z) : string := dec_aux (S (Z.to_nat (Z.log2 n))) n "".

Definition is_digit (c : ascii) : bool :=
  let n := nat_of_ascii c in (48 <=? n)%nat && (n <=? 57)%nat.

Definition digit_val (c : ascii) : Z := Z.of_nat (nat_of_ascii c) - 48.

(** The longest prefix of decimal digits, and what follows it. *)
Fixpoint span_digits (s : string) : string * string :=
  match s with
  | String c rest =>
      if is_digit c
      then let '(ds, tl) := span_digits rest in (String c ds, tl)
      else ("", s)
  | EmptyString => ("", "")
  end.

(** The number a string of decimal digits denotes, most significant
    digit first. *)
Fixpoint digits_val (acc : Z) (s : string) : Z :=
  match s with
  | String c rest => digits_val (10 * acc + digit_val c) rest
  | EmptyString => acc
  end.

Definition all_digits (s : string) : bool :=
  forallb is_digit (list_ascii_of_string s).

(** What follows a numeral does not continue it. *)
Definition no_leading_digit (s : string) : bool :=
  match s with
  | String c _ => negb (is_digit c)
  | EmptyString => true
  end.

(** *** Rounding to binary64 *)

(** The Number value for the rational [num / den] ([0 <= num], [0 < den]),
    negated when [neg]: round to nearest, ties to even. The quotient is taken
    with at least 64 significant bits and a sticky bit below them. *)
Definition round_ratio (neg : bool) (num den : Z) : float :=
  if num =? 0 then (if neg then neg_zero else zero)
  else
    let p := Z.max 0 (64 + Z.log2 den - Z.log2 num) in
    let scaled := num * 2 ^ p in
    let q := scaled / den in
    let sticky := if scaled mod den =? 0 then 0 else 1 in
    let m := 2 * q + sticky in
    SF2Prim (binary_normalize prec emax (if neg then - m else m) (- p - 1) false).

Definition float_of_Z (z : Z) : float := round_ratio (z <? 0) (Z.abs z) 1.

(** [digits * 10 ^ e10] rounded to a Number. *)
Definition round_decimal (neg : bool) (digits e10 : Z) : float :=
  if 0 <=? e10 then round_ratio neg (digits * 10 ^ e10) 1
  else round_ratio neg digits (10 ^ (- e10)).

(** *** Number::toString (radix 10) *)

(** [magnitude num den] is the [n] with [10^(n-1) <= num/den < 10^n]. *)
Fixpoint magnitude_below (fuel : nat) (num den j : Z) : Z :=
  match fuel with
  | O => 1 - j
  | S fuel' =>
      if den <=? num * 10 ^ j then 1 - j
      else magnitude_below fuel' num den (j + 1)
  end.

Definition magnitude (num den : Z) : Z :=
  if den <=? num then Z.of_nat (String.length (dec (num / den)))
  else magnitude_below 400 num den 1.

(** The digits [s], with the exponent [n], of the shortest decimal
    [s * 10^(n-k)] ([k] digits) whose Number value is [x = num/den]; of two
    such decimals the one closer to [x], and the even one on a tie. *)
Fixpoint shortest_from (fuel : nat) (x : float) (num den n0 k : Z) : Z * Z :=
  let tn := if n0 <=? k then num * 10 ^ (k - n0) else num in
  let td := if n0 <=? k then den else den * 10 ^ (n0 - k) in
  let s1 := tn / td in
  let r := tn mod td in
  let lo_ok := PrimFloat.eqb (round_decimal false s1 (n0 - k)) x in
  let hi_ok := PrimFloat.eqb (round_decimal false (s1 + 1) (n0 - k)) x in
  let lo := (s1, n0) in
  let hi := if s1 + 1 =? 10 ^ k then ((s1 + 1) / 10, n0 + 1) else (s1 + 1, n0) in
  let pick_lo := (2 * r <? td) || ((2 * r =? td) && Z.even s1) in
  match fuel with
  | O => lo
  | S fuel' =>
      if lo_ok && hi_ok then (if pick_lo then lo else hi)
      else if lo_ok then lo
      else if hi_ok then hi
      else shortest_from fuel' x num den n0 (k + 1)
  end.

Fixpoint zeros (n : nat) : string :=
  match n with
  | O => ""
  | S n' => String "0" (zeros n')
  end.

Definition format_decimal (s n : Z) : string :=
  let ds := dec s in
  let k := Z.of_nat (String.length ds) in
  if (k <=? n) && (n <=? 21) then ds +:+ zeros (Z.to_nat (n - k))
  else if (0 <? n) && (n <=? 21) then
    substring 0 (Z.to_nat n) ds +:+ "." +:+ substring (Z.to_nat n) (Z.to_nat (k - n)) ds
  else if (-6 <? n) && (n <=? 0) then "0." +:+ zeros (Z.to_nat (- n)) +:+ ds
  else
    let e := (if 0 <=? n - 1 then "+" else "-") +:+ dec (Z.abs (n - 1)) in
    if k =? 1 then ds +:+ "e" +:+ e
    else substring 0 1 ds +:+ "." +:+ substring 1 (Z.to_nat (k - 1)) ds +:+ "e" +:+ e.

Definition Number_toString (x : float) : string :=
  match Prim2SF x with
  | S754_nan => "NaN"
  | S754_zero _ => "0"
  | S754_infinity sign => if sign then "-Infinity" else "Infinity"
  | S754_finite sign m e =>
      let num := if 0 <=? e then Zpos m * 2 ^ e else Zpos m in
      let den := if 0 <=? e then 1 else 2 ^ (- e) in
      let '(s, n) := shortest_from 17 (abs x) num den (magnitude num den) 1 in
      (if sign then "-" else "") +:+ format_decimal s n
  end.

(** *** StringToNumber and parseInt *)

(** StrWhiteSpaceChar, among the code units below 256. *)
Definition is_space (c : ascii) : bool :=
  let n := nat_of_ascii c in
  ((9 <=? n)%nat && (n <=? 13)%nat) || (n =? 32)%nat || (n =? 160)%nat.

Fixpoint trim_start (s : string) : string :=
  match s with
  | String c rest => if is_space c then trim_start rest else s
  | EmptyString => ""
  end.

Fixpoint string_rev_onto (s acc : string) : string :=
  match s with
  | String c rest => string_rev_onto rest (String c acc)
  | EmptyString => acc
  end.

Definition string_rev (s : string) : string := string_rev_onto s "".

Definition trim (s : string) : string :=
  string_rev (trim_start (string_rev (trim_start s))).

Definition all_spaces (s : string) : bool :=
  forallb is_space (list_ascii_of_string s).

Definition sign_string (negative : bool) : string :=
  if negative then "-" else "+".

(** The value of a digit in the given radix, letters in either case. *)
Definition radix_digit (radix : Z) (c : ascii) : option Z :=
  let n := Z.of_nat (nat_of_ascii c) in
  let d := if (48 <=? n) && (n <=? 57) then n - 48
           else if (97 <=? n) && (n <=? 122) then n - 87
           else if (65 <=? n) && (n <=? 90) then n - 55
           else radix in
  if d <? radix then Some d else None.

Fixpoint radix_val (radix acc : Z) (s : string) : option Z :=
  match s with
  | String c rest =>
      match radix_digit radix c with
      | Some d => radix_val radix (radix * acc + d) rest
      | None => None
      end
  | EmptyString => Some acc
  end.

(** NonDecimalIntegerLiteral: [0x], [0o], [0b] and at least one digit. *)
Definition non_decimal (s : string) : option float :=
  match s with
  | String "0" (String p (String c rest)) =>
      let radix := if (Ascii.eqb p "x" || Ascii.eqb p "X")%bool then 16
                   else if (Ascii.eqb p "o" || Ascii.eqb p "O")%bool then 8
                   else if (Ascii.eqb p "b" || Ascii.eqb p "B")%bool then 2
                   else 0 in
      if radix =? 0 then None
      else option_map float_of_Z (radix_val radix 0 (String c rest))
  | _ => None
  end.

Definition split_sign (s : string) : bool * string :=
  match s with
  | String "-" rest => (true, rest)
  | String "+" rest => (false, rest)
  | _ => (false, s)
  end.

(** ExponentPart, optional: its value, or [None] when what is left is not
    an exponent part. *)
Definition exponent_part (s : string) : option Z :=
  match s with
  | EmptyString => Some 0
  | String c rest =>
      if (Ascii.eqb c "e" || Ascii.eqb c "E")%bool then
        let '(neg, ds) := split_sign rest in
        match span_digits ds with
        | (String d ds', EmptyString) =>
            let v := digits_val 0 (String d ds') in
            Some (if neg then - v else v)
        | _ => None
        end
      else None
  end.

(** StrDecimalLiteral. *)
Definition str_decimal (s : string) : float :=
  let '(neg, body) := split_sign s in
  if String.eqb body "Infinity" then (if neg then neg_infinity else infinity)
  else
    let '(ip, r1) := span_digits body in
    let '(fp, r2) := match r1 with
                     | String "." after => span_digits after
                     | _ => ("", r1)
                     end in
    if (String.length ip + String.length fp =? 0)%nat then nan
    else
      match exponent_part r2 with
      | Some e =>
          round_decimal neg (digits_val 0 (ip +:+ fp)) (e - Z.of_nat (String.length fp))
      | None => nan
      end.

Definition StringToNumber (str : string) : float :=
  let s := trim str in
  match s with
  | EmptyString => zero
  | _ =>
      match non_decimal s with
      | Some x => x
      | None => str_decimal s
      end
  end.

(** *** Type conversion *)

Fixpoint own (props : list (string * value)) (k : string) : option value :=
  match props with
  | [] => None
  | (k', v) :: rest => if String.eqb k' k then Some v else own rest k
  end.

(** [undefined] and [null]: the values that have no properties. *)
Definition nullish (v : value) : bool :=
  match v with
  | VUndefined | VNull => true
  | _ => false
  end.

(** ToString. An array is joined with commas, [undefined] and [null]
    elements giving the empty string. A parsed object inherits
    [Object.prototype.toString] unless an own property [toString] hides it;
    that property is data, not a function, and so is [valueOf]'s result an
    object: no primitive is found and a [TypeError] is thrown. *)
Fixpoint ToString (v : value) : completion string :=
  match v with
  | VUndefined => Normal "undefined"
  | VNull => Normal "null"
  | VBool b => Normal (if b then "true" else "false")
  | VNumber x => Normal (Number_toString x)
  | VString s => Normal s
  | VArray xs =>
      (fix join (l : list value) : completion string :=
         match l with
         | [] => Normal ""
         | x :: rest =>
             let* sx := match x with
                        | VUndefined | VNull => Normal ""
                        | _ => ToString x
                        end in
             match rest with
             | [] => Normal sx
             | _ => let* sr := join rest in Normal (sx +:+ "," +:+ sr)
             end
         end) xs
  | VObject props =>
      match own props "toString" with
      | Some _ => Throw TypeError
      | None => Normal "[object Object]"
      end
  end.

(** ToPrimitive: for these values the hint does not matter. *)
Definition ToPrimitive (v : value) : completion value :=
  match v with
  | VArray _ | VObject _ => let* s := ToString v in Normal (VString s)
  | _ => Normal v
  end.

Definition ToNumber (v : value) : completion float :=
  let* p := ToPrimitive v in
  Normal match p with
         | VNull => zero
         | VBool b => if b then one else zero
         | VNumber x => x
         | VString s => StringToNumber s
         | _ => nan
         end.

Definition ToBoolean (v : value) : bool :=
  match v with
  | VUndefined | VNull => false
  | VBool b => b
  | VNumber x => negb (is_zero x || is_nan x)
  | VString s => negb (String.eqb s "")
  | VArray _ | VObject _ => true
  end.

(** [a + b] *)
Definition add (a b : value) : completion value :=
  let* pa := ToPrimitive a in
  let* pb := ToPrimitive b in
  match pa, pb with
  | VString _, _ | _, VString _ =>
      let* sa := ToString pa in
      let* sb := ToString pb in
      Normal (VString (sa +:+ sb))
  | _, _ =>
      let* x := ToNumber pa in
      let* y := ToNumber pb in
      Normal (VNumber (x + y)%float)
  end.

(** [a - b] *)
Definition sub (a b : value) : completion float :=
  let* x := ToNumber a in
  let* y := ToNumber b in
  Normal (x - y)%float.

(** [a / b] *)
Definition div (a b : value) : completion float :=
  let* x := ToNumber a in
  let* y := ToNumber b in
  Normal (x / y)%float.

(** [v.k], for the property names the engine reads ([connectStart],
    [domInteractive], [navigationStart], [name], [value], [url],
    [usedJSHeapSize] and the configuration keys): none of them is defined
    by a built-in prototype, so the result is the own property or
    [undefined]. *)
Definition Get (v : value) (k : string) : completion value :=
  match v with
  | VUndefined | VNull => Throw TypeError
  | VObject props => Normal (default VUndefined (own props k))
  | _ => Normal VUndefined
  end.

(** [Number.parseInt(v, 10)] *)
Definition parseInt (v : value) : completion float :=
  let* str := ToString v in
  let '(neg, body) := split_sign (trim_start str) in
  Normal match span_digits body with
         | (EmptyString, _) => nan
         | (ds, _) => round_ratio neg (digits_val 0 ds) 1
         end.

End ES.

(** ** The engine *)

Module Engine.
Import ES.

(** *** What the engine does to its collaborators

    One trace records, in order, the calls that leave the engine: to the
    events sink ([events.emit]), to the console ([console.error]), to the
    flow function and to the callback, and, of the browser automation
    layer, the calls that acquire, configure and release the browser, the
    context and the page ([launch], [newContext], the two timeouts,
    [addInitScript], [newPage], the three [close] calls). The five
    registrations [page.on] (lines 92-185) and the handlers' reads of the
    page ([pageParameter.url()], [pageParameter.evaluate], [message.type()],
    [message.text()]) are not recorded: what the reads return is an input of
    the handlers, see [page] and [message]. *)
Inductive effect : Type :=
| EmitStarted
| EmitCounter (name : string) (delta : float)
| EmitHistogram (name : string) (v : value)
| ConsoleError (format : option string) (error : exn)
| Launch
| NewContext
| SetDefaultNavigationTimeout (ms : float)
| SetDefaultTimeout (ms : float)
| AddInitScript (script : string)
| NewPage
| FlowFunction
| PageClose
| Callback (error : option exn)
| ContextClose
| BrowserClose.

(** The state a scenario run threads: the ledger [uniquePageLoadToTiming]
    and the trace so far. *)
Record session : Type := Session {
  uniquePageLoadToTiming : gmap string value;
  trace : list effect
}.

(** Statements: they read and write the session and complete normally or
    abruptly. *)
Definition M (A : Type) : Type := session -> completion A * session.

Definition ret {A} (a : A) : M A := fun s => (Normal a, s).

Definition throw {A} (e : exn) : M A := fun s => (Throw e, s).

Definition mbind {A B} (m : M A) (k : A -> M B) : M B :=
  fun s =>
    match m s with
    | (Normal a, s') => k a s'
    | (Throw e, s') => (Throw e, s')
    end.

Notation "'let!' x ':=' c 'in' k" := (mbind c (fun x => k))
  (at level 10, x name, c at level 100, k at level 200).
Notation "c ';;' k" := (mbind c (fun _ => k))
  (at level 100, k at level 200, right associativity).

(** An expression's completion, as a statement. *)
Definition eval {A} (c : completion A) : M A := fun s => (c, s).

Definition perform (e : effect) : M unit :=
  fun s => (Normal tt, Session (uniquePageLoadToTiming s) (trace s ++ [e])).

(** A call to a collaborator that may throw: the call is made, then it
    returns or throws. *)
Definition call (e : effect) (outcome : option exn) : M unit :=
  perform e ;;
  match outcome with
  | None => ret tt
  | Some err => throw err
  end.

Definition read_ledger : M (gmap string value) :=
  fun s => (Normal (uniquePageLoadToTiming s), s).

Definition write_ledger (k : string) (v : value) : M unit :=
  fun s => (Normal tt, Session (<[k := v]> (uniquePageLoadToTiming s)) (trace s)).

(** [try { body } catch (error) { handler }] *)
Definition try_catch {A} (body : M A) (handler : exn -> M A) : M A :=
  fun s =>
    match body s with
    | (Normal a, s') => (Normal a, s')
    | (Throw e, s') => handler e s'
    end.

(** [try { body } finally { cleanup }]: the cleanup runs however the body
    completes; an exception of the cleanup replaces the body's completion. *)
Definition try_finally {A} (body : M A) (cleanup : M unit) : M A :=
  fun s =>
    let '(r, s') := body s in
    match cleanup s' with
    | (Normal _, s'') => (r, s'')
    | (Throw e, s'') => (Throw e, s'')
    end.

(** The property names every object inherits from [Object.prototype]; each
    of them reads as a function or, for [__proto__], as the prototype
    itself: a truthy value. *)
Definition Object_prototype : list string :=
  [ "constructor"; "__defineGetter__"; "__defineSetter__"; "hasOwnProperty";
    "__lookupGetter__"; "__lookupSetter__"; "isPrototypeOf";
    "propertyIsEnumerable"; "toString"; "valueOf"; "__proto__";
    "toLocaleString" ].

(** The test [if (uniquePageLoadToTiming[timingName])] on the ledger, an
    object created by [{}]. *)
Definition recorded (ledger : gmap string value) (timingName : string) : bool :=
  match ledger !! timingName with
  | Some v => ToBoolean v
  | None => bool_decide (timingName ∈ Object_prototype)
  end.

(** [url.startsWith(target)]: a [TypeError] unless [url] is a string. *)
Definition startsWith (url target : value) : completion bool :=
  match url with
  | VString s => let* t := ToString target in Normal (String.prefix t s)
  | _ => Throw TypeError
  end.

(** *** The constructor (lines 17-42) *)

Record PlaywrightEngine : Type := {
  target : value;
  launchOptions : value;
  contextOptions : value;
  defaultNavigationTimeout : float;
  defaultTimeout : float;
  aggregateByName : value;
  extendedMetrics : bool;
  showAllPageMetrics : bool
}.

(** [a || b] on values. *)
Definition or_else (a b : value) : value := if ToBoolean a then a else b.

(** [v?.k] *)
Definition Get_optional (v : value) (k : string) : completion value :=
  match v with
  | VUndefined | VNull => Normal VUndefined
  | _ => Get v k
  end.

(** [(Number.parseInt(v, 10) || 30) * 1000] *)
Definition timeout_ms (v : value) : completion float :=
  let* n := parseInt v in
  Normal ((if ToBoolean (VNumber n) then n else 30) * 1000)%float.

Definition not_undefined (v : value) : bool :=
  match v with
  | VUndefined => false
  | _ => true
  end.

(** [script.config?.engines?.playwright || {}] *)
Definition engine_config (script_config : value) : completion value :=
  let* engines := Get_optional script_config "engines" in
  let* playwright := Get_optional engines "playwright" in
  Normal (or_else playwright (VObject [])).

(** The options are handed to the browser layer as they are; the copy of
    the three flags the constructor writes to the module-level
    [pageHandlerControlVariables] is read nowhere and is left out. *)
Definition constructor (script : value) : completion PlaywrightEngine :=
  let* script_config := Get script "config" in
  let* target := Get script_config "target" in
  let* config := engine_config script_config in
  (* [this.processor]: the flow functions, which [createScenario] looks up *)
  let* _ := Get script_config "processor" in
  let* launchOptions := Get config "launchOptions" in
  let* contextOptions := Get config "contextOptions" in
  let* navigation := Get config "defaultNavigationTimeout" in
  let* defaultNavigationTimeout := timeout_ms navigation in
  let* page := Get config "defaultPageTimeout" in
  let* defaultTimeout := timeout_ms page in
  let* engines' := Get script_config "engines" in
  let* playwright' := Get engines' "playwright" in
  let* aggregateByName := Get playwright' "aggregateByName" in
  let* extendedMetrics := Get playwright' "extendedMetrics" in
  let* showAllPageMetrics := Get playwright' "showAllPageMetrics" in
  Normal {|
    target := target;
    launchOptions := or_else launchOptions (VObject []);
    contextOptions := or_else contextOptions (VObject []);
    defaultNavigationTimeout := defaultNavigationTimeout;
    defaultTimeout := defaultTimeout;
    aggregateByName := or_else aggregateByName (VBool false);
    extendedMetrics := not_undefined extendedMetrics;
    showAllPageMetrics := not_undefined showAllPageMetrics
  |}.

(** *** What the browser hands to the event handlers *)

(** A page at a lifecycle event: [page.url()], and the completion of
    [JSON.parse(await pageParameter.evaluate(script))] for the script the
    handler evaluates ([browserTiming], [getHeapSize]): the parsed value, or
    what the rejected evaluation or [JSON.parse] threw. *)
Record page : Type := Page {
  page_url : string;
  evaluated : completion value
}.

(** A console message: [message.type()], and the completion of
    [JSON.parse(message.text())]. *)
Record message : Type := Message {
  message_type : string;
  message_parsed : completion value
}.

Inductive page_event : Type :=
| domcontentloaded (pageParameter : page)
| console (msg : message)
| load (pageParameter : page)
| pageerror
| requestfinished.

(** How the collaborators behave during one run of a scenario: for each
    call that may throw, what it throws if it does; the page events fired
    while the flow function runs, in the order in which their handlers
    resume after their [await]; the callback, when one was supplied, as
    what it throws (if anything) for the error it is called with. *)
Record run : Type := {
  launch : option exn;
  newContext : option exn;
  addInitScript_vitals : option exn;
  addInitScript_stats : option exn;
  newPage : option exn;
  flow_events : list page_event;
  flowFunction : option exn;
  page_close : option exn;
  callback : option (option exn -> option exn);
  context_close : option exn;
  browser_close : option exn
}.

(** *** createScenario (lines 44-211) *)

Section createScenario.

Variable this : PlaywrightEngine.

(** [spec.name]: [undefined] when the scenario declares no name. *)
Variable spec_name : value.

Definition aggregateByNameInScenario : value := aggregateByName this.
Definition extendedMetricsInScenario : bool := extendedMetrics this.
Definition defaultNavigationTimeoutInScenario : float := defaultNavigationTimeout this.
Definition defaultTimeoutInScenario : float := defaultTimeout this.
Definition targetInScenario : value := target this.
Definition showAllPageMetricsInScenario : bool := showAllPageMetrics this.

Definition getName (url : value) : value :=
  if ToBoolean aggregateByNameInScenario && ToBoolean spec_name
  then spec_name
  else url.

(** A template literal [`prefix${v}`]. *)
Definition template (prefix : string) (v : value) : completion string :=
  let* s := ToString v in Normal (prefix +:+ s).

(** [getName(pageParameter.url()) + performanceTiming.connectStart], as
    the property key it is used as (lines 102-104). *)
Definition timingName_of (url performanceTiming : value) : completion string :=
  let* connectStart := Get performanceTiming "connectStart" in
  let* sum := add (getName url) connectStart in
  ToString sum.

(** [page.on("domcontentloaded", ...)] (lines 92-134) *)
Definition on_domcontentloaded (pageParameter : page) : M unit :=
  if negb extendedMetricsInScenario then ret tt
  else
    try_catch
      (let! performanceTiming := eval (evaluated pageParameter) in
       let url := VString (page_url pageParameter) in
       let! timingName := eval (timingName_of url performanceTiming) in
       let! ledger := read_ledger in
       if recorded ledger timingName then ret tt
       else
         write_ledger timingName performanceTiming ;;
         let! domInteractive := eval (Get performanceTiming "domInteractive") in
         let! navigationStart := eval (Get performanceTiming "navigationStart") in
         let! startToInteractive := eval (sub domInteractive navigationStart) in
         perform (EmitCounter "browser.page.domcontentloaded" 1) ;;
         let! counter := eval (template "browser.page.domcontentloaded." (getName url)) in
         perform (EmitCounter counter 1) ;;
         perform (EmitHistogram "browser.page.dominteractive"
                    (VNumber startToInteractive)) ;;
         let! histogram := eval (template "browser.page.dominteractive." (getName url)) in
         perform (EmitHistogram histogram (VNumber startToInteractive)))
      (fun error =>
         perform (ConsoleError (Some "domcontentloaded event handler code: %s") error)).

(** [page.on("console", ...)] (lines 136-158) *)
Definition on_console (msg : message) : M unit :=
  if String.eqb (message_type msg) "trace" then
    try_catch
      (let! metric := eval (message_parsed msg) in
       let! name := eval (Get metric "name") in
       let! value := eval (Get metric "value") in
       let! url := eval (Get metric "url") in
       let! starts := eval (startsWith url targetInScenario) in
       if starts || showAllPageMetricsInScenario then
         let! metricName := eval (template "browser.page." name) in
         let! histogram := eval (template (metricName +:+ ".") (getName url)) in
         perform (EmitHistogram histogram value)
       else ret tt)
      (fun error =>
         perform (ConsoleError (Some "Console event handler code: %s") error))
  else ret tt.

(** [page.on("load", ...)] (lines 160-179) *)
Definition on_load (pageParameter : page) : M unit :=
  if negb extendedMetricsInScenario then ret tt
  else
    try_catch
      (let! heap := eval (evaluated pageParameter) in
       let! usedJSHeapSize := eval (Get heap "usedJSHeapSize") in
       let! thousands := eval (div usedJSHeapSize (VNumber 1000)) in
       let! megabytes := eval (div (VNumber thousands) (VNumber 1000)) in
       perform (EmitHistogram "browser.memory_used_mb" (VNumber megabytes)))
      (fun error =>
         perform (ConsoleError (Some "Load event handler code: %s") error)).

(** [page.on("requestfinished", ...)] (lines 185-188) *)
Definition on_requestfinished : M unit :=
  perform (EmitCounter "browser.http_requests" 1).

(** An event reaches its handler, whose completion nobody awaits. The
    [pageerror] handler only writes debug output. *)
Definition detached (handler : M unit) : M unit :=
  fun s => (Normal tt, snd (handler s)).

Definition dispatch (ev : page_event) : M unit :=
  match ev with
  | domcontentloaded pageParameter => detached (on_domcontentloaded pageParameter)
  | console msg => detached (on_console msg)
  | load pageParameter => detached (on_load pageParameter)
  | pageerror => ret tt
  | requestfinished => detached on_requestfinished
  end.

Fixpoint dispatch_all (evs : list page_event) : M unit :=
  match evs with
  | [] => ret tt
  | ev :: rest => dispatch ev ;; dispatch_all rest
  end.

(** [const uniquePageLoadToTiming = {}] *)
Definition new_ledger : M unit :=
  fun s => (Normal tt, Session ∅ (trace s)).

(** [scenario(initialContext, callback)] (lines 62-210) *)
Definition scenario (w : run) (initialContext : value) : M value :=
  perform EmitStarted ;;
  call Launch (launch w) ;;
  call NewContext (newContext w) ;;
  perform (SetDefaultNavigationTimeout defaultNavigationTimeoutInScenario) ;;
  perform (SetDefaultTimeout defaultTimeoutInScenario) ;;
  new_ledger ;;
  try_finally
    (try_catch
       (call (AddInitScript "WEB_VITALS_SCRIPT") (addInitScript_vitals w) ;;
        call (AddInitScript "statsToConsole") (addInitScript_stats w) ;;
        call NewPage (newPage w) ;;
        perform FlowFunction ;;
        dispatch_all (flow_events w) ;;
        match flowFunction w with
        | None => ret tt
        | Some error => throw error
        end ;;
        call PageClose (page_close w) ;;
        match callback w with
        | Some cb => call (Callback None) (cb None)
        | None => ret tt
        end ;;
        ret initialContext)
       (fun error =>
          perform (ConsoleError None error) ;;
          match callback w with
          | Some cb => call (Callback (Some error)) (cb (Some error)) ;; ret VUndefined
          | None => throw error
          end))
    (call ContextClose (context_close w) ;;
     call BrowserClose (browser_close w)).

End createScenario.

(** The close sequence at the end of a trace: [context.close()], followed by
    [browser.close()] when the former returned. *)
Definition close_sequence (w : run) : list effect :=
  ContextClose :: match context_close w with
                  | None => [BrowserClose]
                  | Some _ => []
                  end.

(** The call of the callback, when one was supplied. *)
Definition callback_call (w : run) (error : option exn) : list effect :=
  match callback w with
  | Some _ => [Callback error]
  | None => []
  end.

(** *** Reading traces and event lists *)

(** What a page event handler may do to its collaborators: emit a counter or
    a histogram, or log an error under a format string. *)
Definition from_handler (e : effect) : bool :=
  match e with
  | EmitCounter _ _ | EmitHistogram _ _ | ConsoleError (Some _) _ => true
  | _ => false
  end.

Definition is_request_counter (e : effect) : bool :=
  match e with
  | EmitCounter name _ => String.eqb name "browser.http_requests"
  | _ => false
  end.

(** How many finished requests a trace counts. *)
Definition request_counters (t : list effect) : nat :=
  List.length (List.filter is_request_counter t).

Definition is_requestfinished (ev : page_event) : bool :=
  match ev with
  | requestfinished => true
  | _ => false
  end.

Definition is_domcontentloaded (ev : page_event) : bool :=
  match ev with
  | domcontentloaded _ => true
  | _ => false
  end.

(** The events whose handlers return at once unless extended metrics are
    on. *)
Definition needs_extended_metrics (ev : page_event) : bool :=
  match ev with
  | domcontentloaded _ | load _ => true
  | _ => false
  end.

(** The recorded calls of a run up to the configured context (lines 63-80). *)
Definition acquired (this : PlaywrightEngine) : list effect :=
  [ EmitStarted; Launch; NewContext;
    SetDefaultNavigationTimeout (defaultNavigationTimeout this);
    SetDefaultTimeout (defaultTimeout this) ].

(** The recorded calls from there to the start of the flow function (lines
    85-191); the registrations [page.on] made after [newPage] are not
    recorded in a trace. *)
Definition instrumented : list effect :=
  [ AddInitScript "WEB_VITALS_SCRIPT"; AddInitScript "statsToConsole"; NewPage;
    FlowFunction ].

End Engine.

(** ** Sample configurations and inputs *)

Module Sample.
Import ES Engine.

(** An engine for the target [https://shop.test]. *)
Definition engine (aggregate : value) (extended showAll : bool) : PlaywrightEngine := {|
  target := VString "https://shop.test";
  launchOptions := VObject [];
  contextOptions := VObject [];
  defaultNavigationTimeout := 30000;
  defaultTimeout := 30000;
  aggregateByName := aggregate;
  extendedMetrics := extended;
  showAllPageMetrics := showAll
|}.

Definition fresh : session := Session ∅ [].

(** [{"navigationStart":100,"connectStart":95,"domInteractive":180}] *)
Definition timing : value :=
  VObject [("navigationStart", VNumber 100); ("connectStart", VNumber 95);
           ("domInteractive", VNumber 180)].

Definition home : page := Page "https://shop.test/" (Normal timing).

(** A run in which only the given calls throw, no page event fires and the
    callback, when supplied, returns. *)
Definition run_of (launch newContext flowFunction context_close : option exn)
    (callback : bool) : run := {|
  launch := launch;
  newContext := newContext;
  addInitScript_vitals := None;
  addInitScript_stats := None;
  newPage := None;
  flow_events := [];
  flowFunction := flowFunction;
  page_close := None;
  callback := if callback then Some (fun _ => None) else None;
  context_close := context_close;
  browser_close := None
|}.

Definition boom : exn := Thrown (VString "boom").

(** A script whose engine configuration is
    [{ defaultNavigationTimeout: 45, defaultPageTimeout: "abc" }]. *)
Definition script : value :=
  VObject
    [("config",
      VObject
        [("target", VString "https://shop.test");
         ("engines",
          VObject
            [("playwright",
              VObject [("defaultNavigationTimeout", VNumber 45);
                       ("defaultPageTimeout", VString "abc")])])])].

(** A script whose engine configuration is
    [{ extendedMetrics: false, aggregateByName: 0 }]. *)
Definition script_with_flags : value :=
  VObject
    [("config",
      VObject
        [("target", VString "https://shop.test");
         ("engines",
          VObject
            [("playwright",
              VObject [("extendedMetrics", VBool false);
                       ("aggregateByName", VNumber 0)])])])].

(** A script without [config.engines]. *)
Definition script_without_engines : value :=
  VObject [("config", VObject [("target", VString "https://shop.test")])].

(** A run in which every call returns, with the given page events. *)
Definition quiet_run (events : list page_event) (callback : option (option exn -> option exn))
    : run := {|
  launch := None;
  newContext := None;
  addInitScript_vitals := None;
  addInitScript_stats := None;
  newPage := None;
  flow_events := events;
  flowFunction := None;
  page_close := None;
  callback := callback;
  context_close := None;
  browser_close := None
|}.

(** A run in which [context.newPage()] throws. *)
Definition run_without_page (e : exn) : run := {|
  launch := None;
  newContext := None;
  addInitScript_vitals := None;
  addInitScript_stats := None;
  newPage := Some e;
  flow_events := [];
  flowFunction := None;
  page_close := None;
  callback := None;
  context_close := None;
  browser_close := None
|}.

End Sample.

(** ** Properties *)

Import ES Engine.

(** *** Reasoning about statements *)

Ltac unfold_M :=
  unfold try_catch, try_finally, call, mbind, eval, perform, read_ledger,
    write_ledger, ret, throw, detached, new_ledger in *.

(** Case analysis on whatever a [match] of the goal scrutinises. *)
Ltac case_scrutinee :=
  match goal with
  | |- context [match ?x with _ => _ end] =>
      lazymatch x with
      | context [match _ with _ => _ end] => fail
      | _ => destruct x eqn:?
      end
  end.

(** A trace that ends with a given suffix. *)
Ltac split_trace :=
  first [ eexists; reflexivity
        | eexists; rewrite <- app_assoc; reflexivity
        | eexists; do 2 rewrite <- app_assoc; reflexivity
        | eexists; do 3 rewrite <- app_assoc; reflexivity
        | eexists; do 4 rewrite <- app_assoc; reflexivity ].


(** From [let* x := c in k = Normal r]: [c] completed normally. *)
Ltac bind_inversion H :=
  match type of H with
  | bind ?c _ = Normal _ =>
      let E := fresh "E" in
      destruct c eqn:E; [unfold bind in H at 1; cbv beta iota in H | discriminate H]
  end.

(** Case analysis on the [depth] low bits of a positive number. *)
Ltac split_positive p depth tac :=
  lazymatch depth with
  | O => tac
  | S ?d =>
      destruct p as [p|p|];
      [ split_positive p d tac | split_positive p d tac | tac ]
  end.

(** What one event adds to a trace: see [dispatch_effects]. *)
Ltac handler_effects :=
  first [ exists []; split; [rewrite app_nil_r; reflexivity | split; reflexivity]
        | eexists; split; [reflexivity | split; reflexivity]
        | eexists; split; [rewrite <- !app_assoc; reflexivity | split; reflexivity] ].

(** Names what the page events of a run add to its trace, given the lemmas
    on [dispatch_all] (normal completion, effects). *)
Ltac scenario_events normal effects reported Hfrom :=
  match goal with
  | |- context [dispatch_all ?this ?spec_name ?evs ?s0] =>
      let Hd := fresh "Hd" in
      let Hrep := fresh "Hrep" in
      let r1 := fresh "r" in
      let s1 := fresh "s" in
      pose proof (normal this spec_name evs s0) as Hd;
      destruct (effects this spec_name evs s0) as (reported & Hrep & Hfrom & _);
      destruct (dispatch_all this spec_name evs s0) as [r1 s1];
      simpl in Hd, Hrep; subst r1; simpl
  end.

(** *** The built-in conversions on sample values *)

Example Number_toString_samples :
  map Number_toString [95; 0.5; 1e21; 1700000000000; (-0); nan; (-80); 0x1p+70]%float
  = ["95"; "0.5"; "1e+21"; "1700000000000"; "0"; "NaN"; "-80"; "1.1805916207174113e+21"].
Proof. vm_compute. reflexivity. Qed.

Example StringToNumber_samples :
  map StringToNumber ["180"; " 12 "; "0x1F"; "1e3"; "-2.5"; ""; "abc"; "12px"]
  = [180; 12; 31; 1000; (-2.5); 0; nan; nan]%float.
Proof. vm_compute. reflexivity. Qed.

Example parseInt_samples :
  map parseInt [VNumber 45; VString " 42abc"; VString "-7"; VNumber 1.5; VUndefined;
                VNull; VString "0x10"; VObject [("toString", VNumber 1)]]
  = [Normal 45; Normal 42; Normal (-7); Normal 1; Normal nan; Normal nan; Normal 0;
     Throw TypeError]%float.
Proof. vm_compute. reflexivity. Qed.

Example add_samples :
  map (fun '(a, b) => add a b)
    [(VString "https://shop.test/", VNumber 95); (VNumber 1, VNumber 2);
     (VString "a", VUndefined); (VArray [VNumber 1; VNull], VNumber 2);
     (VObject [], VNumber 1); (VObject [("toString", VNull)], VString "")]
  = [Normal (VString "https://shop.test/95"); Normal (VNumber 3);
     Normal (VString "aundefined"); Normal (VString "1,2");
     Normal (VString "[object Object]1"); Throw TypeError].
Proof. vm_compute. reflexivity. Qed.

Lemma session_eta (s : session) :
  Session (uniquePageLoadToTiming s) (trace s) = s.
Proof. destruct s; reflexivity. Qed.

Lemma append_inj (p a b : string) : p +:+ a = p +:+ b -> a = b.
Proof.
  induction p as [|c p IH]; simpl; intros H.
  - exact H.
  - injection H as H. auto.
Qed.

Lemma append_assoc (a b c : string) : (a +:+ b) +:+ c = a +:+ (b +:+ c).
Proof.
  induction a as [|x a IH].
  - reflexivity.
  - change (String x ((a +:+ b) +:+ c) = String x (a +:+ (b +:+ c))).
    rewrite IH. reflexivity.
Qed.

(** *** The naming policy *)

(** C2, as amended. [getName] returns the scenario's name exactly when
    [aggregateByName] and the name are both truthy (a declared name that is
    the empty string is not), and the URL it is given otherwise. Hence the
    names built for two distinct URLs differ without aggregation, the URL
    following the prefix, and coincide under aggregation with a truthy
    name. *)
Theorem getName_policy (this : PlaywrightEngine) (spec_name : value) :
  (ToBoolean (aggregateByName this) = true -> ToBoolean spec_name = true ->
   forall url, getName this spec_name url = spec_name)
  /\ (ToBoolean (aggregateByName this) = false \/ ToBoolean spec_name = false ->
      forall url, getName this spec_name url = url)
  /\ (ToBoolean (aggregateByName this) = false ->
      forall prefix url1 url2, url1 <> url2 ->
        template prefix (getName this spec_name (VString url1)) = Normal (prefix +:+ url1)
        /\ template prefix (getName this spec_name (VString url1))
           <> template prefix (getName this spec_name (VString url2)))
  /\ (ToBoolean (aggregateByName this) = true -> ToBoolean spec_name = true ->
      forall prefix url1 url2,
        template prefix (getName this spec_name (VString url1))
        = template prefix (getName this spec_name (VString url2))).
Proof.
  unfold getName, aggregateByNameInScenario.
  repeat split.
  - intros -> ->. reflexivity.
  - intros [-> | ->] url; [reflexivity|].
    rewrite andb_false_r. reflexivity.
  - rewrite H. reflexivity.
  - rewrite H. simpl. intros E. injection E as E.
    apply append_inj in E. contradiction.
  - intros -> -> prefix url1 url2. reflexivity.
Qed.

Lemma getName_policy_witness :
  getName (Sample.engine (VBool true) true false) (VString "checkout")
    (VString "https://shop.test/cart") = VString "checkout"
  /\ getName (Sample.engine (VBool false) true false) (VString "checkout")
       (VString "https://shop.test/cart") = VString "https://shop.test/cart".
Proof.
  split.
  - apply (getName_policy (Sample.engine (VBool true) true false) (VString "checkout"));
      reflexivity.
  - apply (getName_policy (Sample.engine (VBool false) true false) (VString "checkout")).
    left. reflexivity.
Defined.

(** C2 as stated fails for a declared name that is falsy: with
    [aggregateByName] on and the name [""] declared, [getName] returns the
    URL, not the name, and the names built for two URLs differ. *)
Lemma getName_declared_empty_name :
  ToBoolean (aggregateByName (Sample.engine (VBool true) true false)) = true
  /\ VString "" <> VUndefined
  /\ getName (Sample.engine (VBool true) true false) (VString "")
       (VString "https://shop.test/cart") = VString "https://shop.test/cart"
  /\ getName (Sample.engine (VBool true) true false) (VString "")
       (VString "https://shop.test/cart") <> VString ""
  /\ template "browser.page.domcontentloaded."
       (getName (Sample.engine (VBool true) true false) (VString "")
          (VString "https://shop.test/cart"))
     <> template "browser.page.domcontentloaded."
          (getName (Sample.engine (VBool true) true false) (VString "")
             (VString "https://shop.test/pay")).
Proof.
  repeat split; try discriminate; reflexivity.
Qed.

(** *** The ledger *)

Lemma recorded_truthy (ledger : gmap string value) (k : string) (v : value) :
  ledger !! k = Some v -> ToBoolean v = true -> recorded ledger k = true.
Proof. unfold recorded. intros -> ->. reflexivity. Qed.

(** A firing whose timing identity key is already recorded does nothing. *)
Lemma domcontentloaded_recorded this spec_name (p : page) (pt : value) (key : string) s :
  extendedMetrics this = true ->
  evaluated p = Normal pt ->
  timingName_of this spec_name (VString (page_url p)) pt = Normal key ->
  recorded (uniquePageLoadToTiming s) key = true ->
  on_domcontentloaded this spec_name p s = (Normal tt, s).
Proof.
  intros Hext Hpt Hkey Hrec.
  unfold on_domcontentloaded, extendedMetricsInScenario. rewrite Hext. simpl.
  unfold_M. rewrite Hpt, Hkey. simpl. rewrite Hrec. reflexivity.
Qed.

(** A [domcontentloaded] firing leaves the ledger alone or adds one record,
    under a key that was not yet recorded. *)
Lemma domcontentloaded_ledger this spec_name (p : page) s :
  uniquePageLoadToTiming (snd (on_domcontentloaded this spec_name p s))
  = uniquePageLoadToTiming s
  \/ exists k v,
      recorded (uniquePageLoadToTiming s) k = false
      /\ uniquePageLoadToTiming (snd (on_domcontentloaded this spec_name p s))
         = <[k := v]> (uniquePageLoadToTiming s).
Proof.
  unfold on_domcontentloaded.
  destruct (negb (extendedMetricsInScenario this)); [left; reflexivity|].
  unfold_M.
  destruct (evaluated p) as [pt|e]; simpl; [|left; reflexivity].
  destruct (timingName_of _ _ _ pt) as [key|e]; simpl; [|left; reflexivity].
  destruct (recorded _ key) eqn:Hrec; simpl; [left; reflexivity|].
  right. exists key, pt. split; [exact Hrec|].
  repeat (case_scrutinee; simpl); reflexivity.
Qed.

Lemma dispatch_ledger this spec_name (ev : page_event) s :
  uniquePageLoadToTiming (snd (dispatch this spec_name ev s)) = uniquePageLoadToTiming s
  \/ exists k v,
      recorded (uniquePageLoadToTiming s) k = false
      /\ uniquePageLoadToTiming (snd (dispatch this spec_name ev s))
         = <[k := v]> (uniquePageLoadToTiming s).
Proof.
  destruct ev as [p|msg|p| |]; simpl.
  - apply domcontentloaded_ledger.
  - left. unfold on_console. unfold_M.
    repeat (case_scrutinee; simpl); reflexivity.
  - left. unfold on_load. unfold_M.
    repeat (case_scrutinee; simpl); reflexivity.
  - left. reflexivity.
  - left. reflexivity.
Qed.

(** A truthy record, once in the ledger, stays as it is. *)
Lemma dispatch_all_keeps_record this spec_name (evs : list page_event) :
  forall s k v,
    uniquePageLoadToTiming s !! k = Some v -> ToBoolean v = true ->
    uniquePageLoadToTiming (snd (dispatch_all this spec_name evs s)) !! k = Some v.
Proof.
  induction evs as [|ev evs IH]; intros s k v Hk Hv; simpl.
  - exact Hk.
  - unfold mbind.
    destruct (dispatch this spec_name ev s) as [r s1] eqn:Hd.
    assert (Hs1 : uniquePageLoadToTiming s1 !! k = Some v).
    { pose proof (dispatch_ledger this spec_name ev s) as Hl.
      rewrite Hd in Hl. simpl in Hl.
      destruct Hl as [-> | (k' & v' & Hfresh & ->)]; [exact Hk|].
      rewrite lookup_insert_ne; [exact Hk|].
      intros ->. rewrite (recorded_truthy _ _ _ Hk Hv) in Hfresh. discriminate. }
    destruct r as [[]|e]; [apply IH; assumption|].
    simpl. exact Hs1.
Qed.

(** C1, as amended. After a firing recorded a truthy timing record (every
    object is truthy) under a timing identity key, whatever events follow, the
    ledger keeps that record under the key, and a [domcontentloaded] firing
    that computes the same key leaves the session as it finds it: nothing is
    emitted, nothing is logged, the ledger is not written. *)
Theorem domcontentloaded_idempotent this spec_name
    (first later : page) (pt pt' : value) (key : string)
    (between : list page_event) (s : session) :
  extendedMetrics this = true ->
  evaluated first = Normal pt ->
  ToBoolean pt = true ->
  timingName_of this spec_name (VString (page_url first)) pt = Normal key ->
  recorded (uniquePageLoadToTiming s) key = false ->
  evaluated later = Normal pt' ->
  timingName_of this spec_name (VString (page_url later)) pt' = Normal key ->
  let s1 := snd (on_domcontentloaded this spec_name first s) in
  let s2 := snd (dispatch_all this spec_name between s1) in
  uniquePageLoadToTiming s1 !! key = Some pt
  /\ uniquePageLoadToTiming s2 !! key = Some pt
  /\ on_domcontentloaded this spec_name later s2 = (Normal tt, s2).
Proof.
  intros Hext Hpt Htruthy Hkey Hfresh Hpt' Hkey' s1 s2.
  assert (H1 : uniquePageLoadToTiming s1 !! key = Some pt).
  { subst s1. unfold on_domcontentloaded, extendedMetricsInScenario.
    rewrite Hext. simpl. unfold_M. rewrite Hpt, Hkey. simpl. rewrite Hfresh.
    repeat (case_scrutinee; simpl); apply lookup_insert_eq. }
  assert (H2 : uniquePageLoadToTiming s2 !! key = Some pt).
  { subst s2. apply dispatch_all_keeps_record; assumption. }
  repeat split; try assumption.
  apply (domcontentloaded_recorded this spec_name later pt' key); try assumption.
  apply (recorded_truthy _ _ pt); assumption.
Qed.

Lemma domcontentloaded_idempotent_witness :
  let this := Sample.engine (VBool false) true false in
  let s1 := snd (on_domcontentloaded this VUndefined Sample.home Sample.fresh) in
  let s2 := snd (dispatch_all this VUndefined [requestfinished; domcontentloaded Sample.home] s1) in
  uniquePageLoadToTiming s1 !! "https://shop.test/95" = Some Sample.timing
  /\ uniquePageLoadToTiming s2 !! "https://shop.test/95" = Some Sample.timing
  /\ on_domcontentloaded this VUndefined Sample.home s2 = (Normal tt, s2).
Proof.
  apply (domcontentloaded_idempotent (Sample.engine (VBool false) true false) VUndefined
           Sample.home Sample.home Sample.timing Sample.timing "https://shop.test/95"
           [requestfinished; domcontentloaded Sample.home] Sample.fresh);
    vm_compute; reflexivity.
Defined.

(** C1 as stated fails for a falsy record: when the timing parses to [0],
    the first firing stores [0] under the key and emits, the ledger test of
    the second firing finds a falsy entry, and the second firing, which
    computes the same key, emits the four observations again. *)
Lemma domcontentloaded_falsy_record_emitted_twice :
  let this := Sample.engine (VBool false) true false in
  let p := Page "https://shop.test/" (Normal (VNumber 0)) in
  let s1 := snd (on_domcontentloaded this VUndefined p Sample.fresh) in
  timingName_of this VUndefined (VString (page_url p)) (VNumber 0)
  = Normal "https://shop.test/undefined"
  /\ uniquePageLoadToTiming s1 !! "https://shop.test/undefined" = Some (VNumber 0)
  /\ trace s1
     = [ EmitCounter "browser.page.domcontentloaded" 1;
         EmitCounter "browser.page.domcontentloaded.https://shop.test/" 1;
         EmitHistogram "browser.page.dominteractive" (VNumber nan);
         EmitHistogram "browser.page.dominteractive.https://shop.test/" (VNumber nan) ]
  /\ trace (snd (on_domcontentloaded this VUndefined p s1))
     = [ EmitCounter "browser.page.domcontentloaded" 1;
         EmitCounter "browser.page.domcontentloaded.https://shop.test/" 1;
         EmitHistogram "browser.page.dominteractive" (VNumber nan);
         EmitHistogram "browser.page.dominteractive.https://shop.test/" (VNumber nan);
         EmitCounter "browser.page.domcontentloaded" 1;
         EmitCounter "browser.page.domcontentloaded.https://shop.test/" 1;
         EmitHistogram "browser.page.dominteractive" (VNumber nan);
         EmitHistogram "browser.page.dominteractive.https://shop.test/" (VNumber nan) ]
  /\ on_domcontentloaded this VUndefined p s1 <> (Normal tt, s1).
Proof.
  repeat split; try (vm_compute; reflexivity).
  intros H. apply (f_equal (fun r => List.length (trace (snd r)))) in H.
  vm_compute in H. discriminate H.
Qed.

(** *** The [domcontentloaded] handler *)

Lemma ToString_primitive (v : value) :
  (forall xs, v <> VArray xs) -> (forall props, v <> VObject props) ->
  exists s, ToString v = Normal s.
Proof.
  intros Ha Ho. destruct v; simpl; eauto.
  - exfalso. eapply Ha. reflexivity.
  - exfalso. eapply Ho. reflexivity.
Qed.

(** When [a + b] does not throw, neither does converting [a] to a string. *)
Lemma add_ToString (a b r : value) :
  add a b = Normal r -> exists s, ToString a = Normal s.
Proof.
  unfold add, ToPrimitive. intros H.
  destruct a; try (apply ToString_primitive; discriminate).
  - destruct (ToString (VArray xs)); [eauto|discriminate].
  - destruct (ToString (VObject props)); [eauto|discriminate].
Qed.

Lemma timingName_of_ToString this spec_name (url pt : value) (key : string) :
  timingName_of this spec_name url pt = Normal key ->
  exists name, ToString (getName this spec_name url) = Normal name.
Proof.
  unfold timingName_of. intros H.
  destruct (Get pt "connectStart") as [cs|]; [simpl in H|discriminate].
  destruct (add (getName this spec_name url) cs) as [sum|] eqn:Hadd; [|discriminate].
  eapply add_ToString. exact Hadd.
Qed.

(** C6. A firing that records (extended metrics on, the timing parsed, its
    key computed and not yet in the ledger, the subtraction defined) stores
    the record under the key and emits exactly four observations: the
    counter [browser.page.domcontentloaded] and its name-qualified variant,
    each with delta 1, and the histogram [browser.page.dominteractive] and
    its name-qualified variant, each carrying
    [domInteractive - navigationStart]. *)
Theorem domcontentloaded_first_recording this spec_name
    (p : page) (pt domInteractive navigationStart : value) (key : string)
    (startToInteractive : float) (s : session) :
  extendedMetrics this = true ->
  evaluated p = Normal pt ->
  timingName_of this spec_name (VString (page_url p)) pt = Normal key ->
  recorded (uniquePageLoadToTiming s) key = false ->
  Get pt "domInteractive" = Normal domInteractive ->
  Get pt "navigationStart" = Normal navigationStart ->
  sub domInteractive navigationStart = Normal startToInteractive ->
  exists name,
    ToString (getName this spec_name (VString (page_url p))) = Normal name
    /\ on_domcontentloaded this spec_name p s
       = (Normal tt,
          Session (<[key := pt]> (uniquePageLoadToTiming s))
            (trace s ++
               [ EmitCounter "browser.page.domcontentloaded" 1;
                 EmitCounter ("browser.page.domcontentloaded." +:+ name) 1;
                 EmitHistogram "browser.page.dominteractive" (VNumber startToInteractive);
                 EmitHistogram ("browser.page.dominteractive." +:+ name)
                   (VNumber startToInteractive) ])).
Proof.
  intros Hext Hpt Hkey Hfresh Hdi Hns Hsub.
  destruct (timingName_of_ToString _ _ _ _ _ Hkey) as [name Hname].
  exists name. split; [exact Hname|].
  unfold on_domcontentloaded, extendedMetricsInScenario, template.
  rewrite Hext. simpl. unfold_M.
  rewrite Hpt, Hkey. simpl. rewrite Hfresh, Hdi, Hns, Hsub, Hname. simpl.
  rewrite <- !app_assoc. reflexivity.
Qed.

Lemma domcontentloaded_first_recording_witness :
  exists name,
    ToString (getName (Sample.engine (VBool false) true false) VUndefined
                (VString (page_url Sample.home))) = Normal name
    /\ on_domcontentloaded (Sample.engine (VBool false) true false) VUndefined
         Sample.home Sample.fresh
       = (Normal tt,
          Session (<["https://shop.test/95" := Sample.timing]> ∅)
            ([] ++
               [ EmitCounter "browser.page.domcontentloaded" 1;
                 EmitCounter ("browser.page.domcontentloaded." +:+ name) 1;
                 EmitHistogram "browser.page.dominteractive" (VNumber 80);
                 EmitHistogram ("browser.page.dominteractive." +:+ name) (VNumber 80) ])).
Proof.
  apply (domcontentloaded_first_recording (Sample.engine (VBool false) true false) VUndefined
           Sample.home Sample.timing (VNumber 180) (VNumber 100) "https://shop.test/95" 80
           Sample.fresh);
    vm_compute; reflexivity.
Defined.

Lemma domcontentloaded_normal this spec_name (p : page) (s : session) :
  fst (on_domcontentloaded this spec_name p s) = Normal tt.
Proof.
  unfold on_domcontentloaded.
  destruct (negb (extendedMetricsInScenario this)); [reflexivity|].
  unfold_M. repeat (case_scrutinee; simpl); reflexivity.
Qed.

(** C4, as amended. With extended metrics on, the handler never completes
    abruptly, and a firing whose extraction throws (the evaluation is
    rejected or [JSON.parse] throws, the parsed value is [null], or the
    timing identity key cannot be computed) is logged with [console.error]
    and does nothing else: no counter, no histogram, no ledger entry. *)
Theorem domcontentloaded_extraction_failure this spec_name (p : page) (s : session) :
  extendedMetrics this = true ->
  fst (on_domcontentloaded this spec_name p s) = Normal tt
  /\ (forall e, evaluated p = Throw e ->
        on_domcontentloaded this spec_name p s
        = (Normal tt,
           Session (uniquePageLoadToTiming s)
             (trace s ++ [ConsoleError (Some "domcontentloaded event handler code: %s") e])))
  /\ (evaluated p = Normal VNull ->
        on_domcontentloaded this spec_name p s
        = (Normal tt,
           Session (uniquePageLoadToTiming s)
             (trace s ++
                [ConsoleError (Some "domcontentloaded event handler code: %s") TypeError])))
  /\ (forall pt e, evaluated p = Normal pt ->
        timingName_of this spec_name (VString (page_url p)) pt = Throw e ->
        on_domcontentloaded this spec_name p s
        = (Normal tt,
           Session (uniquePageLoadToTiming s)
             (trace s ++ [ConsoleError (Some "domcontentloaded event handler code: %s") e]))).
Proof.
  intros Hext. split; [apply domcontentloaded_normal|].
  unfold on_domcontentloaded, extendedMetricsInScenario. rewrite Hext. simpl.
  unfold_M. repeat split.
  - intros e ->. reflexivity.
  - intros ->. reflexivity.
  - intros pt e -> Hkey. rewrite Hkey. reflexivity.
Qed.

Lemma domcontentloaded_extraction_failure_witness :
  on_domcontentloaded (Sample.engine (VBool false) true false) VUndefined
    (Page "https://shop.test/" (Throw SyntaxError)) Sample.fresh
  = (Normal tt,
     Session ∅ ([] ++ [ConsoleError (Some "domcontentloaded event handler code: %s")
                         SyntaxError])).
Proof.
  apply (domcontentloaded_extraction_failure (Sample.engine (VBool false) true false)
           VUndefined (Page "https://shop.test/" (Throw SyntaxError)) Sample.fresh);
    reflexivity.
Defined.

(** C4 as stated fails: a record without [domInteractive] is not discarded
    but emitted with the value NaN, and a record whose [domInteractive]
    precedes its [navigationStart] is emitted with the negative difference. *)
Lemma domcontentloaded_malformed_record_emitted :
  trace (snd (on_domcontentloaded (Sample.engine (VBool false) true false) VUndefined
                (Page "https://shop.test/"
                   (Normal (VObject [("navigationStart", VNumber 100);
                                     ("connectStart", VNumber 95)])))
                Sample.fresh))
  = [ EmitCounter "browser.page.domcontentloaded" 1;
      EmitCounter "browser.page.domcontentloaded.https://shop.test/" 1;
      EmitHistogram "browser.page.dominteractive" (VNumber nan);
      EmitHistogram "browser.page.dominteractive.https://shop.test/" (VNumber nan) ]
  /\ trace (snd (on_domcontentloaded (Sample.engine (VBool false) true false) VUndefined
                   (Page "https://shop.test/"
                      (Normal (VObject [("navigationStart", VNumber 180);
                                        ("connectStart", VNumber 95);
                                        ("domInteractive", VNumber 100)])))
                   Sample.fresh))
     = [ EmitCounter "browser.page.domcontentloaded" 1;
         EmitCounter "browser.page.domcontentloaded.https://shop.test/" 1;
         EmitHistogram "browser.page.dominteractive" (VNumber (-80));
         EmitHistogram "browser.page.dominteractive.https://shop.test/" (VNumber (-80)) ].
Proof. split; vm_compute; reflexivity. Qed.

(** *** The [console] handler *)

Lemma console_normal this spec_name (msg : message) (s : session) :
  fst (on_console this spec_name msg s) = Normal tt.
Proof.
  unfold on_console. unfold_M.
  repeat (case_scrutinee; simpl); reflexivity.
Qed.

(** A trace message whose JSON text has no string under [url] is logged with
    a [TypeError] and emits nothing, whatever the configuration. *)
Lemma console_url_not_string this spec_name (msg : message) (metric : value) (s : session) :
  message_type msg = "trace" ->
  message_parsed msg = Normal metric ->
  (forall u, Get metric "url" <> Normal (VString u)) ->
  on_console this spec_name msg s
  = (Normal tt,
     Session (uniquePageLoadToTiming s)
       (trace s ++ [ConsoleError (Some "Console event handler code: %s") TypeError])).
Proof.
  intros Htype Hparsed Hurl.
  unfold on_console. rewrite Htype. simpl. unfold_M. rewrite Hparsed.
  destruct metric; try reflexivity; simpl in *.
  destruct (own props "url") as [[]|]; simpl; try reflexivity.
  exfalso. eapply Hurl. reflexivity.
Qed.

(** C3. A trace message that decodes to a report with a string [name], a
    [value] and a string [url] emits exactly one histogram
    [browser.page.<name>.<getName(url)>] carrying the value when the url
    starts with the target or [showAllPageMetrics] is set, and nothing
    otherwise. *)
Theorem console_emission_gate this spec_name (msg : message)
    (props : list (string * value)) (name url origin pageName : string) (v : value)
    (s : session) :
  message_type msg = "trace" ->
  message_parsed msg = Normal (VObject props) ->
  own props "name" = Some (VString name) ->
  own props "value" = Some v ->
  own props "url" = Some (VString url) ->
  ToString (target this) = Normal origin ->
  ToString (getName this spec_name (VString url)) = Normal pageName ->
  on_console this spec_name msg s
  = (Normal tt,
     if String.prefix origin url || showAllPageMetrics this
     then Session (uniquePageLoadToTiming s)
            (trace s ++
               [EmitHistogram ("browser.page." +:+ name +:+ "." +:+ pageName) v])
     else s).
Proof.
  intros Htype Hparsed Hname Hvalue Hurl Horigin Hpage.
  unfold on_console, template, startsWith, targetInScenario,
    showAllPageMetricsInScenario.
  rewrite Htype. simpl. unfold_M. rewrite Hparsed. simpl.
  rewrite Hname, Hvalue, Hurl, Horigin. simpl.
  destruct (String.prefix origin url || showAllPageMetrics this).
  - rewrite Hpage. simpl. rewrite append_assoc. reflexivity.
  - reflexivity.
Qed.

Lemma console_emission_gate_witness :
  on_console (Sample.engine (VBool false) true false) VUndefined
    (Message "trace"
       (Normal (VObject [("name", VString "LCP"); ("value", VNumber 1200);
                         ("url", VString "https://ads.test/frame")])))
    Sample.fresh
  = (Normal tt, Sample.fresh)
  /\ on_console (Sample.engine (VBool false) true true) VUndefined
       (Message "trace"
          (Normal (VObject [("name", VString "LCP"); ("value", VNumber 1200);
                            ("url", VString "https://ads.test/frame")])))
       Sample.fresh
     = (Normal tt,
        Session ∅
          ([] ++ [EmitHistogram
                    ("browser.page." +:+ "LCP" +:+ "." +:+ "https://ads.test/frame")
                    (VNumber 1200)])).
Proof.
  split.
  - apply (console_emission_gate (Sample.engine (VBool false) true false) VUndefined
             (Message "trace"
                (Normal (VObject [("name", VString "LCP"); ("value", VNumber 1200);
                                  ("url", VString "https://ads.test/frame")])))
             [("name", VString "LCP"); ("value", VNumber 1200);
              ("url", VString "https://ads.test/frame")]
             "LCP" "https://ads.test/frame" "https://shop.test" "https://ads.test/frame"
             (VNumber 1200) Sample.fresh);
      reflexivity.
  - apply (console_emission_gate (Sample.engine (VBool false) true true) VUndefined
             (Message "trace"
                (Normal (VObject [("name", VString "LCP"); ("value", VNumber 1200);
                                  ("url", VString "https://ads.test/frame")])))
             [("name", VString "LCP"); ("value", VNumber 1200);
              ("url", VString "https://ads.test/frame")]
             "LCP" "https://ads.test/frame" "https://shop.test" "https://ads.test/frame"
             (VNumber 1200) Sample.fresh);
      reflexivity.
Defined.

(** C8, as amended. The console handler never completes abruptly. A trace
    message whose text is not valid JSON ([JSON.parse] throws), or which
    decodes to a value without a string [url], is logged and emits nothing. *)
Theorem console_malformed_dropped this spec_name (msg : message) (s : session) :
  fst (on_console this spec_name msg s) = Normal tt
  /\ (message_type msg = "trace" ->
      forall e, message_parsed msg = Throw e ->
        on_console this spec_name msg s
        = (Normal tt,
           Session (uniquePageLoadToTiming s)
             (trace s ++ [ConsoleError (Some "Console event handler code: %s") e])))
  /\ (message_type msg = "trace" ->
      forall metric, message_parsed msg = Normal metric ->
        (forall u, Get metric "url" <> Normal (VString u)) ->
        on_console this spec_name msg s
        = (Normal tt,
           Session (uniquePageLoadToTiming s)
             (trace s ++ [ConsoleError (Some "Console event handler code: %s") TypeError]))).
Proof.
  split; [apply console_normal|]. split.
  - intros Htype e Hparsed. unfold on_console. rewrite Htype. simpl.
    unfold_M. rewrite Hparsed. reflexivity.
  - intros Htype metric Hparsed Hurl.
    eapply console_url_not_string; eassumption.
Qed.

Lemma console_malformed_dropped_witness :
  on_console (Sample.engine (VBool false) true true) VUndefined
    (Message "trace" (Throw SyntaxError)) Sample.fresh
  = (Normal tt,
     Session ∅ ([] ++ [ConsoleError (Some "Console event handler code: %s") SyntaxError])).
Proof.
  apply (console_malformed_dropped (Sample.engine (VBool false) true true) VUndefined
           (Message "trace" (Throw SyntaxError)) Sample.fresh);
    reflexivity.
Defined.

(** C8 as stated fails: a report that lacks the fields [name] and [value]
    but has a url under the target is emitted, as
    [browser.page.undefined.<url>] with the value [undefined]. *)
Lemma console_report_without_name_emitted :
  Get (VObject [("url", VString "https://shop.test/cart")]) "name" = Normal VUndefined
  /\ Get (VObject [("url", VString "https://shop.test/cart")]) "value" = Normal VUndefined
  /\ on_console (Sample.engine (VBool false) true false) VUndefined
       (Message "trace" (Normal (VObject [("url", VString "https://shop.test/cart")])))
       Sample.fresh
     = (Normal tt,
        Session ∅
          [EmitHistogram "browser.page.undefined.https://shop.test/cart" VUndefined]).
Proof. repeat split. Qed.

(** C9. A trace message whose text is valid JSON but holds no string under
    [url] (the field is absent, or not a string, or the text is [null])
    emits no histogram, whether or not [showAllPageMetrics] is set: reading
    [url.startsWith] throws before the override is looked at, and the error
    is only logged. *)
Theorem console_url_checked_before_override this spec_name
    (msg : message) (metric : value) (s : session) :
  message_type msg = "trace" ->
  message_parsed msg = Normal metric ->
  (forall u, Get metric "url" <> Normal (VString u)) ->
  on_console this spec_name msg s
  = (Normal tt,
     Session (uniquePageLoadToTiming s)
       (trace s ++ [ConsoleError (Some "Console event handler code: %s") TypeError]))
  /\ on_console
       {| target := target this; launchOptions := launchOptions this;
          contextOptions := contextOptions this;
          defaultNavigationTimeout := defaultNavigationTimeout this;
          defaultTimeout := defaultTimeout this;
          aggregateByName := aggregateByName this;
          extendedMetrics := extendedMetrics this;
          showAllPageMetrics := true |} spec_name msg s
     = (Normal tt,
        Session (uniquePageLoadToTiming s)
          (trace s ++ [ConsoleError (Some "Console event handler code: %s") TypeError])).
Proof.
  intros Htype Hparsed Hurl.
  split; eapply console_url_not_string; eassumption.
Qed.

Lemma console_url_checked_before_override_witness :
  on_console (Sample.engine (VBool false) true true) VUndefined
    (Message "trace"
       (Normal (VObject [("name", VString "LCP"); ("value", VNumber 1200)])))
    Sample.fresh
  = (Normal tt,
     Session ∅ ([] ++ [ConsoleError (Some "Console event handler code: %s") TypeError])).
Proof.
  apply (console_url_checked_before_override (Sample.engine (VBool false) true true)
           VUndefined
           (Message "trace"
              (Normal (VObject [("name", VString "LCP"); ("value", VNumber 1200)])))
           (VObject [("name", VString "LCP"); ("value", VNumber 1200)]) Sample.fresh);
    try reflexivity.
  intros u. discriminate.
Defined.

(** *** The [load] handler *)

Lemma float_neq (a b : float) :
  PrimFloat.eqb a b = false -> PrimFloat.eqb a a = true -> a <> b.
Proof. intros Hab Haa ->. rewrite Haa in Hab. discriminate. Qed.

Lemma load_sample this (p : page) (heap : value) (usedJSHeapSize : float) (s : session) :
  extendedMetrics this = true ->
  evaluated p = Normal heap ->
  Get heap "usedJSHeapSize" = Normal (VNumber usedJSHeapSize) ->
  on_load this p s
  = (Normal tt,
     Session (uniquePageLoadToTiming s)
       (trace s ++
          [EmitHistogram "browser.memory_used_mb"
             (VNumber (usedJSHeapSize / 1000 / 1000)%float)])).
Proof.
  intros Hext Hheap Hused.
  unfold on_load, extendedMetricsInScenario. rewrite Hext. simpl.
  unfold_M. rewrite Hheap. simpl. rewrite Hused. reflexivity.
Qed.

(** C7, as amended. With extended metrics on, a [load] event whose heap
    sample parsed to a number emits exactly one histogram
    [browser.memory_used_mb], carrying [usedJSHeapSize / 1000 / 1000]: two
    binary64 divisions, each rounded. The ledger is not consulted: [n] load
    events emit [n] samples. *)
Theorem load_heap_sample this spec_name (p : page) (heap : value) (usedJSHeapSize : float) :
  extendedMetrics this = true ->
  evaluated p = Normal heap ->
  Get heap "usedJSHeapSize" = Normal (VNumber usedJSHeapSize) ->
  forall s,
    on_load this p s
    = (Normal tt,
       Session (uniquePageLoadToTiming s)
         (trace s ++
            [EmitHistogram "browser.memory_used_mb"
               (VNumber (usedJSHeapSize / 1000 / 1000)%float)]))
    /\ forall n,
        dispatch_all this spec_name (repeat (load p) n) s
        = (Normal tt,
           Session (uniquePageLoadToTiming s)
             (trace s ++
                repeat (EmitHistogram "browser.memory_used_mb"
                          (VNumber (usedJSHeapSize / 1000 / 1000)%float)) n)).
Proof.
  intros Hext Hheap Hused s.
  split; [apply (load_sample this p heap); assumption|].
  intros n. revert s. induction n as [|n IH]; intros s; simpl.
  - unfold ret. rewrite app_nil_r, session_eta. reflexivity.
  - unfold mbind, detached.
    rewrite (load_sample this p heap usedJSHeapSize s Hext Hheap Hused). simpl.
    rewrite IH. simpl. rewrite <- app_assoc. reflexivity.
Qed.

Lemma load_heap_sample_witness :
  on_load (Sample.engine (VBool false) true false)
    (Page "https://shop.test/" (Normal (VObject [("usedJSHeapSize", VNumber 52000000)])))
    Sample.fresh
  = (Normal tt, Session ∅ ([] ++ [EmitHistogram "browser.memory_used_mb" (VNumber 52)])).
Proof.
  apply (load_heap_sample (Sample.engine (VBool false) true false) VUndefined
           (Page "https://shop.test/"
              (Normal (VObject [("usedJSHeapSize", VNumber 52000000)])))
           (VObject [("usedJSHeapSize", VNumber 52000000)]) 52000000);
    reflexivity.
Defined.

(** C7 as stated fails: for a heap of 52,000,004 bytes the emitted value is
    [52000004 / 1000 / 1000], which is not the Number [52000004 / 1000000]. *)
Lemma load_heap_sample_two_roundings :
  on_load (Sample.engine (VBool false) true false)
    (Page "https://shop.test/" (Normal (VObject [("usedJSHeapSize", VNumber 52000004)])))
    Sample.fresh
  = (Normal tt,
     Session ∅ [EmitHistogram "browser.memory_used_mb"
                  (VNumber (52000004 / 1000 / 1000)%float)])
  /\ (52000004 / 1000 / 1000)%float <> (52000004 / 1000000)%float
  /\ Number_toString (52000004 / 1000 / 1000)%float = "52.000004000000004"
  /\ Number_toString (52000004 / 1000000)%float = "52.000004".
Proof.
  repeat split; try (vm_compute; reflexivity).
  apply float_neq; vm_compute; reflexivity.
Qed.

(** *** The scenario *)

Lemma dispatch_normal this spec_name (ev : page_event) (s : session) :
  fst (dispatch this spec_name ev s) = Normal tt.
Proof. destruct ev; reflexivity. Qed.

Lemma dispatch_all_normal this spec_name (evs : list page_event) :
  forall s, fst (dispatch_all this spec_name evs s) = Normal tt.
Proof.
  induction evs as [|ev evs IH]; intros s; simpl.
  - reflexivity.
  - unfold mbind.
    pose proof (dispatch_normal this spec_name ev s) as Hd.
    destruct (dispatch this spec_name ev s) as [r s1]. simpl in Hd. subst r.
    apply IH.
Qed.

(** C5, as amended. Once the browser and the context exist ([launch] and
    [newContext] returned), every run ends with [context.close()] and then,
    if that call returned, [browser.close()], however the body was left.
    When the flow function throws, the error is logged and, with a callback,
    passed to it as [callback(error, context)], the scenario returning
    [undefined]; without a callback it is rethrown after the close
    sequence. *)
Theorem scenario_teardown this spec_name (w : run) (initialContext : value) (s : session) :
  launch w = None ->
  newContext w = None ->
  (exists before,
     trace (snd (scenario this spec_name w initialContext s))
     = before ++ close_sequence w)
  /\ (forall error,
        addInitScript_vitals w = None -> addInitScript_stats w = None ->
        newPage w = None -> flowFunction w = Some error ->
        match callback w with
        | Some cb =>
            (exists before,
               trace (snd (scenario this spec_name w initialContext s))
               = before ++ [ConsoleError None error; Callback (Some error)]
                   ++ close_sequence w)
            /\ (cb (Some error) = None -> context_close w = None ->
                browser_close w = None ->
                fst (scenario this spec_name w initialContext s) = Normal VUndefined)
        | None =>
            (exists before,
               trace (snd (scenario this spec_name w initialContext s))
               = before ++ [ConsoleError None error] ++ close_sequence w)
            /\ (context_close w = None -> browser_close w = None ->
                fst (scenario this spec_name w initialContext s) = Throw error)
        end).
Proof.
  intros Hlaunch HnewContext.
  unfold scenario, close_sequence. unfold_M. rewrite Hlaunch, HnewContext. simpl.
  split.
  - destruct (addInitScript_vitals w), (addInitScript_stats w), (newPage w); simpl;
      try (destruct (callback w) as [cb|]; simpl;
           [destruct (cb _); simpl|];
           destruct (context_close w); simpl; try destruct (browser_close w); simpl;
           split_trace).
    match goal with
    | |- context [dispatch_all this spec_name ?evs ?s0] =>
        pose proof (dispatch_all_normal this spec_name evs s0) as Hd;
        destruct (dispatch_all this spec_name evs s0) as [r1 s1]
    end.
    simpl in Hd. subst r1. simpl.
    destruct (flowFunction w), (page_close w); simpl;
      destruct (callback w) as [cb|]; simpl;
      repeat (match goal with
              | |- context [match cb ?x with _ => _ end] => destruct (cb x); simpl
              end);
      destruct (context_close w); simpl; try destruct (browser_close w); simpl;
      split_trace.
  - intros error -> -> -> Hflow. simpl.
    match goal with
    | |- context [dispatch_all this spec_name ?evs ?s0] =>
        pose proof (dispatch_all_normal this spec_name evs s0) as Hd;
        destruct (dispatch_all this spec_name evs s0) as [r1 s1]
    end.
    simpl in Hd. subst r1. simpl. rewrite Hflow. simpl.
    destruct (callback w) as [cb|]; simpl.
    + split.
      * destruct (cb (Some error)); simpl;
          destruct (context_close w); simpl; try destruct (browser_close w); simpl;
          split_trace.
      * intros -> -> ->. reflexivity.
    + split.
      * destruct (context_close w); simpl; try destruct (browser_close w); simpl;
          split_trace.
      * intros -> ->. reflexivity.
Qed.

Lemma scenario_teardown_witness :
  (exists before,
     trace (snd (scenario (Sample.engine (VBool false) true false) VUndefined
                   (Sample.run_of None None (Some Sample.boom) None true) VNull Sample.fresh))
     = before ++ [ConsoleError None Sample.boom; Callback (Some Sample.boom)]
         ++ [ContextClose; BrowserClose])
  /\ fst (scenario (Sample.engine (VBool false) true false) VUndefined
            (Sample.run_of None None (Some Sample.boom) None true) VNull Sample.fresh)
     = Normal VUndefined.
Proof.
  pose proof (scenario_teardown (Sample.engine (VBool false) true false) VUndefined
                (Sample.run_of None None (Some Sample.boom) None true) VNull Sample.fresh
                eq_refl eq_refl) as [_ H].
  specialize (H Sample.boom eq_refl eq_refl eq_refl eq_refl).
  simpl in H. destruct H as [Htrace Hresult].
  split; [exact Htrace|].
  apply Hresult; reflexivity.
Defined.

(** C5 as stated fails on a resource error: when [launch] throws there is
    nothing to close and nothing is closed; when [newContext] throws, the
    launched browser is never closed; when [context.close()] throws,
    [browser.close()] is not executed. *)
Lemma scenario_resource_error_skips_close :
  scenario (Sample.engine (VBool false) true false) VUndefined
    (Sample.run_of (Some TypeError) None None None false) VNull Sample.fresh
  = (Throw TypeError, Session ∅ [EmitStarted; Launch])
  /\ scenario (Sample.engine (VBool false) true false) VUndefined
       (Sample.run_of None (Some TypeError) None None false) VNull Sample.fresh
     = (Throw TypeError, Session ∅ [EmitStarted; Launch; NewContext])
  /\ scenario (Sample.engine (VBool false) true false) VUndefined
       (Sample.run_of None None (Some Sample.boom) (Some TypeError) false) VNull
       Sample.fresh
     = (Throw TypeError,
        Session ∅
          [ EmitStarted; Launch; NewContext;
            SetDefaultNavigationTimeout 30000; SetDefaultTimeout 30000;
            AddInitScript "WEB_VITALS_SCRIPT"; AddInitScript "statsToConsole";
            NewPage; FlowFunction; ConsoleError None Sample.boom; ContextClose ]).
Proof. repeat split. Qed.

(** *** Decimal numerals and [parseInt] *)

Lemma digit_char_spec (d : Z) :
  0 <= d < 10 -> is_digit (digit_char d) = true /\ digit_val (digit_char d) = d.
Proof.
  intros H.
  assert (d = 0 \/ d = 1 \/ d = 2 \/ d = 3 \/ d = 4 \/ d = 5 \/ d = 6 \/ d = 7
          \/ d = 8 \/ d = 9) as Hd by lia.
  repeat (destruct Hd as [-> | Hd]; [split; reflexivity|]).
  subst d. split; reflexivity.
Qed.

Lemma digits_val_app (ds rest : string) :
  forall acc, digits_val acc (ds +:+ rest) = digits_val (digits_val acc ds) rest.
Proof.
  induction ds as [|c ds IH]; intros acc.
  - reflexivity.
  - apply IH.
Qed.

Lemma all_digits_app (a b : string) :
  all_digits (a +:+ b) = all_digits a && all_digits b.
Proof.
  unfold all_digits. induction a as [|c a IH].
  - reflexivity.
  - change (is_digit c && forallb is_digit (list_ascii_of_string (a +:+ b))
            = is_digit c && forallb is_digit (list_ascii_of_string a)
              && forallb is_digit (list_ascii_of_string b)).
    rewrite IH. apply andb_assoc.
Qed.

Lemma all_digits_cons (c : ascii) (s : string) :
  all_digits (String c s) = is_digit c && all_digits s.
Proof. reflexivity. Qed.

Lemma digits_val_cons (acc : Z) (c : ascii) (s : string) :
  digits_val acc (String c s) = digits_val (10 * acc + digit_val c) s.
Proof. reflexivity. Qed.

Lemma length_snoc (s : string) (c : ascii) :
  String.length (s +:+ String c "") = S (String.length s).
Proof.
  induction s as [|x s IH].
  - reflexivity.
  - change (S (String.length (s +:+ String c "")) = S (S (String.length s))).
    rewrite IH. reflexivity.
Qed.

Lemma append_empty (s : string) : s +:+ "" = s.
Proof.
  induction s as [|x s IH].
  - reflexivity.
  - change (String x (s +:+ "") = String x s). rewrite IH. reflexivity.
Qed.

Lemma dec_aux_spec (fuel : nat) :
  forall n acc,
    (1 <= fuel)%nat -> 0 <= n < 2 ^ Z.of_nat fuel ->
    exists ds,
      dec_aux fuel n acc = ds +:+ acc
      /\ ds <> ""
      /\ all_digits ds = true
      /\ forall a, digits_val a ds = a * 10 ^ Z.of_nat (String.length ds) + n.
Proof.
  induction fuel as [|fuel IH]; intros n acc Hfuel Hn; [lia|].
  change (dec_aux (S fuel) n acc)
    with (if n <? 10 then String (digit_char (n mod 10)) acc
          else dec_aux fuel (n / 10) (String (digit_char (n mod 10)) acc)).
  destruct (digit_char_spec (n mod 10)) as [Hdig Hval];
    [apply Z.mod_pos_bound; lia|].
  generalize dependent (digit_char (n mod 10)). intros c Hdig Hval.
  destruct (n <? 10) eqn:Hlt.
  - apply Z.ltb_lt in Hlt.
    exists (String c "").
    split; [reflexivity|]. split; [discriminate|]. split.
    + rewrite all_digits_cons, Hdig. reflexivity.
    + intros a. rewrite digits_val_cons, Hval.
      change (digits_val (10 * a + n mod 10) "") with (10 * a + n mod 10).
      change (Z.of_nat (String.length (String c ""))) with 1.
      rewrite Z.mod_small by lia. lia.
  - apply Z.ltb_ge in Hlt.
    assert (Hpow : 2 ^ Z.of_nat (S fuel) = 2 * 2 ^ Z.of_nat fuel).
    { rewrite Nat2Z.inj_succ, Z.pow_succ_r by lia. reflexivity. }
    assert (Hfuel' : (1 <= fuel)%nat).
    { destruct fuel; [|lia]. change (2 ^ Z.of_nat 1) with 2 in Hn. lia. }
    destruct (IH (n / 10) (String c acc) Hfuel')
      as (ds & Heq & Hne & Hall & Hds).
    { split; [apply Z.div_pos; lia|].
      apply Z.div_lt_upper_bound; lia. }
    exists (ds +:+ String c "").
    split; [rewrite Heq, append_assoc; reflexivity|].
    split; [destruct ds; [congruence | discriminate]|].
    split.
    + rewrite all_digits_app, Hall, all_digits_cons, Hdig. reflexivity.
    + intros a. rewrite digits_val_app, Hds, digits_val_cons, Hval.
      change (digits_val ?x "") with x.
      rewrite length_snoc, Nat2Z.inj_succ, Z.pow_succ_r by lia.
      pose proof (Z.div_mod n 10). lia.
Qed.

Lemma dec_spec (n : Z) :
  0 <= n ->
  dec n <> "" /\ all_digits (dec n) = true /\ digits_val 0 (dec n) = n.
Proof.
  intros Hn. unfold dec.
  destruct (dec_aux_spec (S (Z.to_nat (Z.log2 n))) n "") as (ds & Heq & Hne & Hall & Hds).
  - lia.
  - split; [lia|].
    rewrite Nat2Z.inj_succ, Z2Nat.id by apply Z.log2_nonneg.
    destruct (Z.eq_dec n 0) as [->|]; [reflexivity|].
    apply Z.log2_spec. lia.
  - rewrite append_empty in Heq. rewrite Heq.
    split; [assumption|]. split; [assumption|].
    rewrite Hds. lia.
Qed.


Lemma span_digits_app (ds rest : string) :
  all_digits ds = true -> no_leading_digit rest = true ->
  span_digits (ds +:+ rest) = (ds, rest).
Proof.
  intros Hds Hrest. induction ds as [|c ds IH].
  - change ("" +:+ rest) with rest.
    destruct rest as [|c rest]; [reflexivity|].
    change (span_digits (String c rest))
      with (if is_digit c
            then let '(ds, tl) := span_digits rest in (String c ds, tl)
            else ("", String c rest)).
    simpl in Hrest. destruct (is_digit c); [discriminate | reflexivity].
  - rewrite all_digits_cons in Hds. apply andb_prop in Hds as [Hc Hds].
    change (span_digits (String c ds +:+ rest))
      with (if is_digit c
            then let '(ds', tl) := span_digits (ds +:+ rest) in (String c ds', tl)
            else ("", String c (ds +:+ rest))).
    rewrite Hc, (IH Hds). reflexivity.
Qed.



Lemma timeout_ms_parsed (v : value) (x : float) :
  parseInt v = Normal x ->
  timeout_ms v = Normal (if ToBoolean (VNumber x) then (x * 1000)%float else 30000%float).
Proof.
  intros H. unfold timeout_ms. rewrite H. unfold bind.
  destruct (ToBoolean (VNumber x)); reflexivity.
Qed.


(** *** The timeouts *)





(** *** Numerals with white space and sign, and Numbers *)

Lemma trim_start_spaces (ws body : string) :
  all_spaces ws = true -> trim_start (ws +:+ body) = trim_start body.
Proof.
  unfold all_spaces. induction ws as [|c ws IH]; intros H.
  - reflexivity.
  - change (forallb is_space (list_ascii_of_string (String c ws)))
      with (is_space c && forallb is_space (list_ascii_of_string ws)) in H.
    apply andb_prop in H as [Hc Hws].
    change (trim_start (String c ws +:+ body))
      with (if is_space c then trim_start (ws +:+ body) else String c (ws +:+ body)).
    rewrite Hc. apply IH. exact Hws.
Qed.

Lemma parseInt_signed (ws rest : string) (negative : bool) (n : Z) :
  all_spaces ws = true -> 0 < n -> no_leading_digit rest = true ->
  parseInt (VString (ws +:+ sign_string negative +:+ dec n +:+ rest))
  = Normal (float_of_Z (if negative then - n else n)).
Proof.
  intros Hws Hn Hrest.
  destruct (dec_spec n (Z.lt_le_incl _ _ Hn)) as (Hne & Hall & Hval).
  unfold parseInt.
  change (ToString (VString ?s)) with (@Normal string s).
  unfold bind.
  rewrite (trim_start_spaces _ _ Hws).
  assert (Hsign : split_sign (trim_start (sign_string negative +:+ dec n +:+ rest))
                  = (negative, dec n +:+ rest)).
  { destruct negative; reflexivity. }
  rewrite Hsign, (span_digits_app _ _ Hall Hrest), Hval.
  destruct (dec n) as [|c ds]; [congruence|].
  unfold float_of_Z.
  destruct negative.
  - replace (- n <? 0) with true by (symmetry; apply Z.ltb_lt; lia).
    rewrite Z.abs_neq by lia. rewrite Z.opp_involutive. reflexivity.
  - replace (n <? 0) with false by (symmetry; apply Z.ltb_ge; lia).
    rewrite Z.abs_eq by lia. reflexivity.
Qed.



(** Whole seconds up to an hour, as Numbers: neither sign is falsy, and the
    product with 1000 is the Number of the product. *)
Lemma whole_seconds_float (n : Z) :
  0 < n <= 3600 ->
  ToBoolean (VNumber (float_of_Z n)) = true
  /\ (float_of_Z n * 1000)%float = float_of_Z (1000 * n)
  /\ ToBoolean (VNumber (float_of_Z (- n))) = true
  /\ (float_of_Z (- n) * 1000)%float = float_of_Z (- (1000 * n))
  /\ (float_of_Z (- (1000 * n)) <? 0)%float = true.
Proof.
  intros Hn. destruct n as [|p|p]; [lia| |lia].
  split_positive p 12%nat
    ltac:(first [ exfalso; lia | vm_compute; repeat split ]).
Qed.





Lemma timeout_ms_signed_numeral (ws rest : string) (negative : bool) (n : Z) :
  all_spaces ws = true -> 0 < n <= 3600 -> no_leading_digit rest = true ->
  timeout_ms (VString (ws +:+ sign_string negative +:+ dec n +:+ rest))
  = Normal (float_of_Z (if negative then - (1000 * n) else 1000 * n)).
Proof.
  intros Hws Hn Hrest.
  destruct (whole_seconds_float n Hn) as (Hpos & Hmul & Hneg & Hmul' & _).
  assert (H0 : 0 < n) by lia.
  rewrite (timeout_ms_parsed _ _ (parseInt_signed ws rest negative n Hws H0 Hrest)).
  destruct negative.
  - rewrite Hneg, Hmul'. reflexivity.
  - rewrite Hpos, Hmul. reflexivity.
Qed.



(** ** Further properties of the engine *)

(** *** The constructor *)

Lemma timeout_ms_undefined : timeout_ms VUndefined = Normal 30000%float.
Proof. reflexivity. Qed.

Lemma Get_nullish (v : value) (k : string) :
  nullish v = true -> Get v k = Throw TypeError.
Proof. destruct v; try discriminate; reflexivity. Qed.

Lemma Get_total (v x : value) (k k' : string) :
  Get v k = Normal x -> exists y, Get v k' = Normal y.
Proof. destruct v; try discriminate; simpl; eauto. Qed.

(** X1. Without [config.engines.playwright] ([engines] or [playwright]
    missing or [null]) the constructor throws a [TypeError]: the default
    [{}] of line 21 does not guard the reads of lines 31-36. *)
Theorem constructor_requires_engine_config
    (script script_config engines playwright : value) :
  Get script "config" = Normal script_config ->
  Get script_config "engines" = Normal engines ->
  Get_optional engines "playwright" = Normal playwright ->
  nullish playwright = true ->
  constructor script = Throw TypeError.
Proof.
  intros Hconfig Hengines Hplaywright Hnull.
  unfold constructor. rewrite Hconfig. unfold bind at 1.
  destruct (Get_total script_config engines "engines" "target" Hengines) as [t Ht].
  destruct (Get_total script_config engines "engines" "processor" Hengines) as [pr Hpr].
  rewrite Ht. unfold bind at 1.
  assert (Hcfg : engine_config script_config = Normal (VObject [])).
  { unfold engine_config.
    assert (Hopt : Get_optional script_config "engines" = Normal engines).
    { destruct script_config; try discriminate; exact Hengines. }
    rewrite Hopt. unfold bind at 1. rewrite Hplaywright. unfold bind.
    destruct playwright; try discriminate; reflexivity. }
  rewrite Hcfg. unfold bind at 1. rewrite Hpr. unfold bind at 1.
  change (Get (VObject []) "launchOptions") with (Normal VUndefined).
  change (Get (VObject []) "contextOptions") with (Normal VUndefined).
  change (Get (VObject []) "defaultNavigationTimeout") with (Normal VUndefined).
  change (Get (VObject []) "defaultPageTimeout") with (Normal VUndefined).
  unfold bind at 1. unfold bind at 1. unfold bind at 1.
  rewrite timeout_ms_undefined. unfold bind at 1. unfold bind at 1. unfold bind at 1.
  rewrite Hengines. unfold bind at 1.
  assert (Hcases : nullish engines = true \/ Get engines "playwright" = Normal playwright).
  { destruct engines; try (left; reflexivity); right; exact Hplaywright. }
  destruct Hcases as [He | Hp].
  - rewrite (Get_nullish engines _ He). reflexivity.
  - rewrite Hp. unfold bind at 1.
    rewrite (Get_nullish playwright _ Hnull). reflexivity.
Qed.

Lemma constructor_requires_engine_config_witness :
  constructor Sample.script_without_engines = Throw TypeError.
Proof.
  apply (constructor_requires_engine_config Sample.script_without_engines
           (VObject [("target", VString "https://shop.test")]) VUndefined VUndefined);
    reflexivity.
Defined.

(** X2. [extendedMetrics] and [showAllPageMetrics] are presence flags: on
    exactly when the property is not [undefined], whatever its value
    ([false] included); [aggregateByName] is the configured value when it
    is truthy and [false] otherwise; the target is [config.target]. *)
Theorem constructor_flags (script : value) (this : PlaywrightEngine) :
  constructor script = Normal this ->
  exists script_config engines playwright extended showAll aggregate,
    Get script "config" = Normal script_config
    /\ Get script_config "engines" = Normal engines
    /\ Get engines "playwright" = Normal playwright
    /\ Get playwright "extendedMetrics" = Normal extended
    /\ Get playwright "showAllPageMetrics" = Normal showAll
    /\ Get playwright "aggregateByName" = Normal aggregate
    /\ Get script_config "target" = Normal (target this)
    /\ (extendedMetrics this = true <-> extended <> VUndefined)
    /\ (showAllPageMetrics this = true <-> showAll <> VUndefined)
    /\ aggregateByName this = (if ToBoolean aggregate then aggregate else VBool false).
Proof.
  intros H. unfold constructor in H.
  repeat bind_inversion H.
  injection H as <-. simpl.
  do 6 eexists.
  repeat (split; [first [eassumption | reflexivity]|]).
  split; [|split; [|reflexivity]];
    match goal with
    | |- not_undefined ?v = true <-> _ =>
        destruct v; simpl; split; intros; congruence
    end.
Qed.

Lemma constructor_flags_witness :
  exists this,
    constructor Sample.script_with_flags = Normal this
    /\ extendedMetrics this = true
    /\ showAllPageMetrics this = false
    /\ aggregateByName this = VBool false.
Proof.
  destruct (constructor Sample.script_with_flags) as [this|] eqn:Hc;
    [|vm_compute in Hc; discriminate Hc].
  destruct (constructor_flags Sample.script_with_flags this Hc)
    as (sc & en & pw & ex & sh & ag & H1 & H2 & H3 & H4 & H5 & H6 & _ & Hex & Hsh & Hag).
  vm_compute in H1. injection H1 as <-.
  vm_compute in H2. injection H2 as <-.
  vm_compute in H3. injection H3 as <-.
  vm_compute in H4. injection H4 as <-.
  vm_compute in H5. injection H5 as <-.
  vm_compute in H6. injection H6 as <-.
  exists this. split; [reflexivity|]. split; [|split].
  - apply Hex. discriminate.
  - destruct (showAllPageMetrics this); [|reflexivity].
    exfalso. apply (proj1 Hsh); reflexivity.
  - rewrite Hag. reflexivity.
Defined.

(** *** Signed timeouts *)

(** X3. For every whole number of seconds from 1 to 3600, a signed numeral,
    also after white space and before other text, is parsed with its sign
    and multiplied by 1000: with [-] the timeout is the negative Number
    [-1000 n], which is below zero; it is neither rejected nor replaced by
    the default. *)
Theorem timeout_ms_signed (ws rest : string) (negative : bool) (n : Z) :
  all_spaces ws = true -> 0 < n <= 3600 -> no_leading_digit rest = true ->
  timeout_ms (VString (ws +:+ sign_string negative +:+ dec n +:+ rest))
  = Normal (float_of_Z (if negative then - (1000 * n) else 1000 * n))
  /\ (float_of_Z (- (1000 * n)) <? 0)%float = true.
Proof.
  intros Hws Hn Hrest.
  split; [apply timeout_ms_signed_numeral; assumption|].
  apply (whole_seconds_float n Hn).
Qed.

Lemma timeout_ms_signed_witness :
  timeout_ms (VString " -5s") = Normal (-5000)%float
  /\ (-5000 <? 0)%float = true.
Proof.
  exact (timeout_ms_signed " " "s" true 5 eq_refl ltac:(lia) eq_refl).
Defined.

(** *** What the handlers do, event by event *)

Lemma filter_request_counters_app (a b : list effect) :
  request_counters (a ++ b) = (request_counters a + request_counters b)%nat.
Proof. unfold request_counters. rewrite List.filter_app, List.length_app. reflexivity. Qed.

(** One event adds to the trace, and only what a handler may do; it counts a
    request exactly when it is [requestfinished]. *)
Lemma dispatch_effects this spec_name (ev : page_event) (s : session) :
  exists added,
    trace (snd (dispatch this spec_name ev s)) = trace s ++ added
    /\ forallb from_handler added = true
    /\ request_counters added = if is_requestfinished ev then 1%nat else 0%nat.
Proof.
  destruct ev as [p|msg|p| |]; simpl; unfold detached.
  - unfold on_domcontentloaded.
    destruct (negb (extendedMetricsInScenario this)); [handler_effects|].
    unfold template, bind. unfold_M. repeat (case_scrutinee; simpl); handler_effects.
  - unfold on_console, template, bind. unfold_M.
    repeat (case_scrutinee; simpl); handler_effects.
  - unfold on_load.
    destruct (negb (extendedMetricsInScenario this)); [handler_effects|].
    unfold_M. repeat (case_scrutinee; simpl); handler_effects.
  - handler_effects.
  - handler_effects.
Qed.

Lemma dispatch_all_cons this spec_name (ev : page_event) (evs : list page_event)
    (s : session) :
  dispatch_all this spec_name (ev :: evs) s
  = dispatch_all this spec_name evs (snd (dispatch this spec_name ev s)).
Proof.
  simpl. unfold mbind.
  pose proof (dispatch_normal this spec_name ev s) as Hn.
  destruct (dispatch this spec_name ev s) as [r s1]. simpl in Hn. subst r.
  reflexivity.
Qed.

Lemma dispatch_all_effects this spec_name (evs : list page_event) :
  forall s, exists added,
    trace (snd (dispatch_all this spec_name evs s)) = trace s ++ added
    /\ forallb from_handler added = true
    /\ request_counters added = List.length (List.filter is_requestfinished evs).
Proof.
  induction evs as [|ev evs IH]; intros s.
  - exists []. simpl. rewrite app_nil_r. repeat split.
  - rewrite dispatch_all_cons.
    destruct (dispatch_effects this spec_name ev s) as (a1 & H1 & F1 & C1).
    destruct (IH (snd (dispatch this spec_name ev s))) as (a2 & H2 & F2 & C2).
    exists (a1 ++ a2). split; [|split].
    + rewrite H2, H1, app_assoc. reflexivity.
    + rewrite forallb_app, F1, F2. reflexivity.
    + rewrite filter_request_counters_app, C1, C2. simpl.
      destruct (is_requestfinished ev); reflexivity.
Qed.

(** X4. Whatever page events fire, their handlers only add to the trace, and
    what they add are counters, histograms and [console.error] lines with a
    format: a handler never emits [started], never calls the flow function
    or the callback, and never acquires, configures or closes the browser,
    the context or a page. (The handlers' reads of the page, [url()] and
    [evaluate], are not calls a trace records.) *)
Theorem handlers_only_report this spec_name (evs : list page_event) (s : session) :
  exists added,
    trace (snd (dispatch_all this spec_name evs s)) = trace s ++ added
    /\ forallb from_handler added = true.
Proof.
  destruct (dispatch_all_effects this spec_name evs s) as (added & H & F & _).
  exists added. split; assumption.
Qed.

(** X5. Each [requestfinished] event is counted once as
    [browser.http_requests], with or without extended metrics, and no other
    event is counted as a request. *)
Theorem requests_counted_once this spec_name (evs : list page_event) (s : session) :
  request_counters (trace (snd (dispatch_all this spec_name evs s)))
  = (request_counters (trace s) + List.length (List.filter is_requestfinished evs))%nat.
Proof.
  destruct (dispatch_all_effects this spec_name evs s) as (added & H & _ & C).
  rewrite H, filter_request_counters_app, C. reflexivity.
Qed.

Lemma console_ledger this spec_name (msg : message) (s : session) :
  uniquePageLoadToTiming (snd (on_console this spec_name msg s))
  = uniquePageLoadToTiming s.
Proof.
  unfold on_console. unfold_M. repeat (case_scrutinee; simpl); reflexivity.
Qed.

Lemma load_ledger this (p : page) (s : session) :
  uniquePageLoadToTiming (snd (on_load this p s)) = uniquePageLoadToTiming s.
Proof.
  unfold on_load. unfold_M. repeat (case_scrutinee; simpl); reflexivity.
Qed.

(** X6. With extended metrics off, the [domcontentloaded] and [load] events
    are ignored: a run of events behaves as the run without them (console
    metrics and request counters are still reported), and the ledger is
    never written. *)
Theorem extended_metrics_off this spec_name (evs : list page_event) :
  extendedMetrics this = false ->
  forall s,
    dispatch_all this spec_name evs s
    = dispatch_all this spec_name
        (List.filter (fun ev => negb (needs_extended_metrics ev)) evs) s
    /\ uniquePageLoadToTiming (snd (dispatch_all this spec_name evs s))
       = uniquePageLoadToTiming s.
Proof.
  intros Hoff. induction evs as [|ev evs IH]; intros s.
  - split; reflexivity.
  - rewrite dispatch_all_cons.
    destruct ev as [p|msg|p| |]; simpl List.filter.
    + assert (Hd : dispatch this spec_name (domcontentloaded p) s = (Normal tt, s)).
      { simpl. unfold detached, on_domcontentloaded, extendedMetricsInScenario.
        rewrite Hoff. reflexivity. }
      rewrite Hd. apply IH.
    + rewrite dispatch_all_cons.
      destruct (IH (snd (dispatch this spec_name (console msg) s))) as [H1 H2].
      split; [exact H1|]. rewrite H2. simpl. apply console_ledger.
    + assert (Hd : dispatch this spec_name (load p) s = (Normal tt, s)).
      { simpl. unfold detached, on_load, extendedMetricsInScenario.
        rewrite Hoff. reflexivity. }
      rewrite Hd. apply IH.
    + rewrite dispatch_all_cons. apply IH.
    + rewrite dispatch_all_cons.
      destruct (IH (snd (dispatch this spec_name requestfinished s))) as [H1 H2].
      split; [exact H1|]. rewrite H2. reflexivity.
Qed.

Lemma extended_metrics_off_witness :
  dispatch_all (Sample.engine (VBool false) false false) VUndefined
    [domcontentloaded Sample.home; requestfinished; load Sample.home] Sample.fresh
  = (Normal tt, Session ∅ [EmitCounter "browser.http_requests" 1]).
Proof.
  destruct (extended_metrics_off (Sample.engine (VBool false) false false) VUndefined
              [domcontentloaded Sample.home; requestfinished; load Sample.home]
              eq_refl Sample.fresh) as [H _].
  rewrite H. reflexivity.
Defined.

(** X7. The [load] handler never completes abruptly; when the heap sample
    cannot be read (the evaluation is rejected or [JSON.parse] throws, the
    parsed value is [null], or [usedJSHeapSize] cannot be converted to a
    number) the error is logged and nothing is emitted. *)
Theorem load_failure_logged this (p : page) (s : session) :
  extendedMetrics this = true ->
  fst (on_load this p s) = Normal tt
  /\ (forall e, evaluated p = Throw e ->
        on_load this p s
        = (Normal tt,
           Session (uniquePageLoadToTiming s)
             (trace s ++ [ConsoleError (Some "Load event handler code: %s") e])))
  /\ (evaluated p = Normal VNull ->
        on_load this p s
        = (Normal tt,
           Session (uniquePageLoadToTiming s)
             (trace s ++ [ConsoleError (Some "Load event handler code: %s") TypeError])))
  /\ (forall heap size e,
        evaluated p = Normal heap ->
        Get heap "usedJSHeapSize" = Normal size ->
        ToNumber size = Throw e ->
        on_load this p s
        = (Normal tt,
           Session (uniquePageLoadToTiming s)
             (trace s ++ [ConsoleError (Some "Load event handler code: %s") e]))).
Proof.
  intros Hext.
  split.
  { unfold on_load. unfold_M. repeat (case_scrutinee; simpl); reflexivity. }
  unfold on_load, extendedMetricsInScenario. rewrite Hext. simpl. unfold_M.
  split; [|split].
  - intros e ->. reflexivity.
  - intros ->. reflexivity.
  - intros heap size e -> Hsize Hnum. simpl. rewrite Hsize.
    unfold div. rewrite Hnum. reflexivity.
Qed.

Lemma load_failure_logged_witness :
  on_load (Sample.engine (VBool false) true false)
    (Page "https://shop.test/" (Throw SyntaxError)) Sample.fresh
  = (Normal tt,
     Session ∅ ([] ++ [ConsoleError (Some "Load event handler code: %s") SyntaxError])).
Proof.
  apply (load_failure_logged (Sample.engine (VBool false) true false)
           (Page "https://shop.test/" (Throw SyntaxError)) Sample.fresh);
    reflexivity.
Defined.

(** X8. A heap sample that parses but has no [usedJSHeapSize] is not
    dropped: the histogram [browser.memory_used_mb] is emitted with the
    value NaN. *)
Theorem load_without_heap_size this (p : page) (heap : value) (s : session) :
  extendedMetrics this = true ->
  evaluated p = Normal heap ->
  Get heap "usedJSHeapSize" = Normal VUndefined ->
  on_load this p s
  = (Normal tt,
     Session (uniquePageLoadToTiming s)
       (trace s ++ [EmitHistogram "browser.memory_used_mb" (VNumber nan)])).
Proof.
  intros Hext Hheap Hsize.
  unfold on_load, extendedMetricsInScenario. rewrite Hext. simpl. unfold_M.
  rewrite Hheap. simpl. rewrite Hsize. reflexivity.
Qed.

Lemma load_without_heap_size_witness :
  on_load (Sample.engine (VBool false) true false)
    (Page "https://shop.test/" (Normal (VObject [("totalJSHeapSize", VNumber 1)])))
    Sample.fresh
  = (Normal tt,
     Session ∅ ([] ++ [EmitHistogram "browser.memory_used_mb" (VNumber nan)])).
Proof.
  apply (load_without_heap_size (Sample.engine (VBool false) true false)
           (Page "https://shop.test/" (Normal (VObject [("totalJSHeapSize", VNumber 1)])))
           (VObject [("totalJSHeapSize", VNumber 1)]) Sample.fresh);
    reflexivity.
Defined.

Lemma dispatch_ledger_step this spec_name (ev : page_event) (s : session) :
  uniquePageLoadToTiming (snd (dispatch this spec_name ev s)) = uniquePageLoadToTiming s
  \/ (is_domcontentloaded ev = true
      /\ exists k v,
          uniquePageLoadToTiming (snd (dispatch this spec_name ev s))
          = <[k := v]> (uniquePageLoadToTiming s)).
Proof.
  destruct ev as [p|msg|p| |].
  - destruct (domcontentloaded_ledger this spec_name p s) as [H | (k & v & _ & H)].
    + left. exact H.
    + right. split; [reflexivity|]. exists k, v. exact H.
  - left. apply console_ledger.
  - left. apply load_ledger.
  - left. reflexivity.
  - left. reflexivity.
Qed.

(** X9. The ledger only grows: the keys recorded before a run of events
    are recorded after it, and it gains at most one key per
    [domcontentloaded] event. *)
Theorem ledger_grows this spec_name (evs : list page_event) :
  forall s,
    dom (uniquePageLoadToTiming s)
      ⊆ dom (uniquePageLoadToTiming (snd (dispatch_all this spec_name evs s)))
    /\ (size (uniquePageLoadToTiming (snd (dispatch_all this spec_name evs s)))
        <= size (uniquePageLoadToTiming s)
           + List.length (List.filter is_domcontentloaded evs))%nat.
Proof.
  induction evs as [|ev evs IH]; intros s.
  - simpl. split; [reflexivity | lia].
  - rewrite dispatch_all_cons.
    destruct (IH (snd (dispatch this spec_name ev s))) as [Hdom Hsize].
    destruct (dispatch_ledger_step this spec_name ev s) as [Hs | (Hev & k & v & Hs)].
    + rewrite Hs in Hdom, Hsize. split; [exact Hdom|].
      simpl. destruct (is_domcontentloaded ev); simpl; lia.
    + rewrite Hs in Hdom, Hsize. split.
      * etransitivity; [apply (dom_insert_subseteq _ k v) | exact Hdom].
      * simpl. rewrite Hev. simpl.
        pose proof (map_size_insert k v (uniquePageLoadToTiming s)) as Hins.
        destruct (uniquePageLoadToTiming s !! k); simpl in Hins; lia.
Qed.









(** X13. The record is stored before the metrics are computed: when the
    subtraction throws, the key stays recorded although nothing was
    emitted, only the error is logged, and (the record being truthy) later
    firings with the same key are dropped. *)
Theorem ledger_written_before_emission this spec_name
    (p : page) (pt domInteractive navigationStart : value) (key : string)
    (e : exn) (s : session) :
  extendedMetrics this = true ->
  evaluated p = Normal pt ->
  timingName_of this spec_name (VString (page_url p)) pt = Normal key ->
  recorded (uniquePageLoadToTiming s) key = false ->
  Get pt "domInteractive" = Normal domInteractive ->
  Get pt "navigationStart" = Normal navigationStart ->
  sub domInteractive navigationStart = Throw e ->
  on_domcontentloaded this spec_name p s
  = (Normal tt,
     Session (<[key := pt]> (uniquePageLoadToTiming s))
       (trace s ++ [ConsoleError (Some "domcontentloaded event handler code: %s") e]))
  /\ (ToBoolean pt = true ->
      forall later pt',
        evaluated later = Normal pt' ->
        timingName_of this spec_name (VString (page_url later)) pt' = Normal key ->
        on_domcontentloaded this spec_name later
          (snd (on_domcontentloaded this spec_name p s))
        = (Normal tt, snd (on_domcontentloaded this spec_name p s))).
Proof.
  intros Hext Hpt Hkey Hfresh Hdi Hns Hsub.
  assert (Hrun : on_domcontentloaded this spec_name p s
    = (Normal tt,
       Session (<[key := pt]> (uniquePageLoadToTiming s))
         (trace s ++ [ConsoleError (Some "domcontentloaded event handler code: %s") e]))).
  { unfold on_domcontentloaded, extendedMetricsInScenario.
    rewrite Hext. simpl. unfold_M.
    rewrite Hpt, Hkey. simpl. rewrite Hfresh, Hdi, Hns, Hsub. reflexivity. }
  split; [exact Hrun|].
  intros Htruthy later pt' Hpt' Hkey'. rewrite Hrun. simpl.
  apply (domcontentloaded_recorded this spec_name later pt' key); try assumption.
  apply (recorded_truthy _ _ pt); [apply lookup_insert_eq | exact Htruthy].
Qed.

Lemma ledger_written_before_emission_witness :
  on_domcontentloaded (Sample.engine (VBool false) true false) VUndefined
    (Page "https://shop.test/"
       (Normal (VObject [("connectStart", VNumber 95);
                         ("domInteractive", VObject [("toString", VNull)])])))
    Sample.fresh
  = (Normal tt,
     Session (<["https://shop.test/95" :=
                  VObject [("connectStart", VNumber 95);
                           ("domInteractive", VObject [("toString", VNull)])]]> ∅)
       ([] ++ [ConsoleError (Some "domcontentloaded event handler code: %s") TypeError])).
Proof.
  apply (ledger_written_before_emission (Sample.engine (VBool false) true false) VUndefined
           (Page "https://shop.test/"
              (Normal (VObject [("connectStart", VNumber 95);
                                ("domInteractive", VObject [("toString", VNull)])])))
           (VObject [("connectStart", VNumber 95);
                     ("domInteractive", VObject [("toString", VNull)])])
           (VObject [("toString", VNull)]) VUndefined "https://shop.test/95" TypeError
           Sample.fresh);
    vm_compute; reflexivity.
Defined.

(** *** Runs of the scenario *)



(** X15. A callback that throws when called on success is called a second
    time, with its own error: the call sits inside the [try] block, so the
    [catch] clause logs the error and calls the callback again. The
    scenario then returns [undefined], or throws what the second call
    throws. *)
Theorem callback_called_again_when_it_throws this spec_name
    (w : run) (cb : option exn -> option exn) (e : exn)
    (initialContext : value) (s : session) :
  launch w = None -> newContext w = None ->
  addInitScript_vitals w = None -> addInitScript_stats w = None -> newPage w = None ->
  flowFunction w = None -> page_close w = None ->
  callback w = Some cb -> cb None = Some e ->
  exists reported,
    forallb from_handler reported = true
    /\ trace (snd (scenario this spec_name w initialContext s))
       = trace s ++ acquired this ++ instrumented ++ reported
           ++ [PageClose; Callback None; ConsoleError None e; Callback (Some e)]
           ++ close_sequence w
    /\ (context_close w = None -> browser_close w = None ->
        fst (scenario this spec_name w initialContext s)
        = match cb (Some e) with
          | None => Normal VUndefined
          | Some e' => Throw e'
          end).
Proof.
  intros Hl Hn Hv Hst Hp Hf Hpc Hcallback Hcb.
  unfold scenario, close_sequence, acquired, instrumented,
    defaultNavigationTimeoutInScenario, defaultTimeoutInScenario.
  unfold_M. rewrite Hl, Hn, Hv, Hst, Hp. simpl.
  scenario_events dispatch_all_normal dispatch_all_effects reported Hfrom.
  exists reported. split; [exact Hfrom|].
  rewrite Hf, Hpc, Hcallback. simpl. rewrite Hcb. simpl.
  split.
  - destruct (cb (Some e)); simpl;
      destruct (context_close w); simpl; try destruct (browser_close w); simpl;
      rewrite Hrep, <- !app_assoc; reflexivity.
  - intros -> ->. destruct (cb (Some e)); reflexivity.
Qed.

Lemma callback_called_again_when_it_throws_witness :
  exists reported,
    forallb from_handler reported = true
    /\ trace (snd (scenario (Sample.engine (VBool false) true false) VUndefined
                     (Sample.quiet_run []
                        (Some (fun error => match error with
                                            | None => Some Sample.boom
                                            | Some _ => None
                                            end)))
                     VNull Sample.fresh))
       = [] ++ acquired (Sample.engine (VBool false) true false) ++ instrumented
           ++ reported
           ++ [PageClose; Callback None; ConsoleError None Sample.boom;
               Callback (Some Sample.boom)]
           ++ [ContextClose; BrowserClose]
    /\ fst (scenario (Sample.engine (VBool false) true false) VUndefined
              (Sample.quiet_run []
                 (Some (fun error => match error with
                                     | None => Some Sample.boom
                                     | Some _ => None
                                     end)))
              VNull Sample.fresh)
       = Normal VUndefined.
Proof.
  destruct (callback_called_again_when_it_throws
              (Sample.engine (VBool false) true false) VUndefined
              (Sample.quiet_run []
                 (Some (fun error => match error with
                                     | None => Some Sample.boom
                                     | Some _ => None
                                     end)))
              (fun error => match error with
                            | None => Some Sample.boom
                            | Some _ => None
                            end)
              Sample.boom VNull Sample.fresh
              eq_refl eq_refl eq_refl eq_refl eq_refl eq_refl eq_refl eq_refl eq_refl)
    as (reported & Hfrom & Htrace & Hresult).
  exists reported. split; [exact Hfrom|]. split; [exact Htrace|].
  exact (Hresult eq_refl eq_refl).
Defined.

(** X16. What [context.close()] or [browser.close()] throws replaces the
    completion of the body: the scenario throws that exception, whether the
    flow had succeeded or failed. *)
Theorem close_error_replaces_result this spec_name
    (w : run) (e : exn) (initialContext : value) (s : session) :
  launch w = None -> newContext w = None ->
  context_close w = Some e
  \/ (context_close w = None /\ browser_close w = Some e) ->
  fst (scenario this spec_name w initialContext s) = Throw e.
Proof.
  intros Hl Hn Hclose.
  unfold scenario. unfold_M. rewrite Hl, Hn. simpl.
  destruct (addInitScript_vitals w), (addInitScript_stats w), (newPage w); simpl;
    try (destruct (callback w) as [cb|]; simpl;
         [destruct (cb _); simpl|];
         destruct Hclose as [-> | [-> ->]]; reflexivity).
  match goal with
  | |- context [dispatch_all this spec_name ?evs ?s0] =>
      pose proof (dispatch_all_normal this spec_name evs s0) as Hd;
      destruct (dispatch_all this spec_name evs s0) as [r1 s1]
  end.
  simpl in Hd. subst r1. simpl.
  destruct (flowFunction w), (page_close w); simpl;
    destruct (callback w) as [cb|]; simpl;
    repeat (match goal with
            | |- context [match cb ?x with _ => _ end] => destruct (cb x); simpl
            end);
    destruct Hclose as [-> | [-> ->]]; reflexivity.
Qed.

Lemma close_error_replaces_result_witness :
  fst (scenario (Sample.engine (VBool false) true false) VUndefined
         (Sample.run_of None None (Some Sample.boom) (Some TypeError) false)
         VNull Sample.fresh)
  = Throw TypeError.
Proof.
  apply (close_error_replaces_result (Sample.engine (VBool false) true false) VUndefined
           (Sample.run_of None None (Some Sample.boom) (Some TypeError) false)
           TypeError VNull Sample.fresh);
    [reflexivity | reflexivity | left; reflexivity].
Defined.

(** X17. When the flow function throws, what its page events reported is
    kept, [page.close()] is not called, the error is logged and then passed
    to the callback when there is one, and the close sequence follows. *)
Theorem flow_error_trace this spec_name
    (w : run) (e : exn) (initialContext : value) (s : session) :
  launch w = None -> newContext w = None ->
  addInitScript_vitals w = None -> addInitScript_stats w = None -> newPage w = None ->
  flowFunction w = Some e ->
  exists reported,
    forallb from_handler reported = true
    /\ trace (snd (scenario this spec_name w initialContext s))
       = trace s ++ acquired this ++ instrumented ++ reported
           ++ [ConsoleError None e] ++ callback_call w (Some e) ++ close_sequence w.
Proof.
  intros Hl Hn Hv Hst Hp Hf.
  unfold scenario, close_sequence, callback_call, acquired, instrumented,
    defaultNavigationTimeoutInScenario, defaultTimeoutInScenario.
  unfold_M. rewrite Hl, Hn, Hv, Hst, Hp. simpl.
  scenario_events dispatch_all_normal dispatch_all_effects reported Hfrom.
  exists reported. split; [exact Hfrom|].
  rewrite Hf. simpl.
  destruct (callback w) as [cb|]; simpl;
    [destruct (cb (Some e)); simpl|];
    destruct (context_close w); simpl; try destruct (browser_close w); simpl;
    rewrite Hrep, <- !app_assoc; reflexivity.
Qed.

Lemma flow_error_trace_witness :
  exists reported,
    forallb from_handler reported = true
    /\ trace (snd (scenario (Sample.engine (VBool false) true false) VUndefined
                     (Sample.run_of None None (Some Sample.boom) None true)
                     VNull Sample.fresh))
       = [] ++ acquired (Sample.engine (VBool false) true false) ++ instrumented
           ++ reported ++ [ConsoleError None Sample.boom]
           ++ [Callback (Some Sample.boom)] ++ [ContextClose; BrowserClose].
Proof.
  apply (flow_error_trace (Sample.engine (VBool false) true false) VUndefined
           (Sample.run_of None None (Some Sample.boom) None true)
           Sample.boom VNull Sample.fresh);
    reflexivity.
Defined.

(** X18. When [addInitScript] or [newPage] throws, the flow function is
    never called; the error is logged and handled like a flow error, and
    the close sequence follows. *)
Theorem instrumentation_error_skips_flow this spec_name
    (w : run) (e : exn) (initialContext : value) (s : session) :
  launch w = None -> newContext w = None ->
  (addInitScript_vitals w = Some e ->
   trace (snd (scenario this spec_name w initialContext s))
   = trace s ++ acquired this
       ++ [AddInitScript "WEB_VITALS_SCRIPT"; ConsoleError None e]
       ++ callback_call w (Some e) ++ close_sequence w)
  /\ (addInitScript_vitals w = None -> addInitScript_stats w = Some e ->
      trace (snd (scenario this spec_name w initialContext s))
      = trace s ++ acquired this
          ++ [AddInitScript "WEB_VITALS_SCRIPT"; AddInitScript "statsToConsole";
              ConsoleError None e]
          ++ callback_call w (Some e) ++ close_sequence w)
  /\ (addInitScript_vitals w = None -> addInitScript_stats w = None ->
      newPage w = Some e ->
      trace (snd (scenario this spec_name w initialContext s))
      = trace s ++ acquired this
          ++ [AddInitScript "WEB_VITALS_SCRIPT"; AddInitScript "statsToConsole";
              NewPage; ConsoleError None e]
          ++ callback_call w (Some e) ++ close_sequence w).
Proof.
  intros Hl Hn.
  unfold scenario, close_sequence, callback_call, acquired,
    defaultNavigationTimeoutInScenario, defaultTimeoutInScenario.
  unfold_M. rewrite Hl, Hn. simpl.
  split; [|split].
  - intros ->. simpl.
    destruct (callback w) as [cb|]; simpl;
      [destruct (cb (Some e)); simpl|];
      destruct (context_close w); simpl; try destruct (browser_close w); simpl;
      rewrite <- !app_assoc; reflexivity.
  - intros -> ->. simpl.
    destruct (callback w) as [cb|]; simpl;
      [destruct (cb (Some e)); simpl|];
      destruct (context_close w); simpl; try destruct (browser_close w); simpl;
      rewrite <- !app_assoc; reflexivity.
  - intros -> -> ->. simpl.
    destruct (callback w) as [cb|]; simpl;
      [destruct (cb (Some e)); simpl|];
      destruct (context_close w); simpl; try destruct (browser_close w); simpl;
      rewrite <- !app_assoc; reflexivity.
Qed.

Lemma instrumentation_error_skips_flow_witness :
  trace (snd (scenario (Sample.engine (VBool false) true false) VUndefined
                (Sample.run_without_page Sample.boom) VNull Sample.fresh))
  = [] ++ acquired (Sample.engine (VBool false) true false)
      ++ [AddInitScript "WEB_VITALS_SCRIPT"; AddInitScript "statsToConsole";
          NewPage; ConsoleError None Sample.boom]
      ++ [] ++ [ContextClose; BrowserClose].
Proof.
  apply (instrumentation_error_skips_flow (Sample.engine (VBool false) true false)
           VUndefined (Sample.run_without_page Sample.boom) Sample.boom VNull Sample.fresh);
    reflexivity.
Defined.

(** X19. Every run of a scenario starts from an empty ledger: what it does
    and returns does not depend on what an earlier run recorded. *)
Theorem scenario_ledger_is_fresh this spec_name
    (w : run) (initialContext : value)
    (ledger ledger' : gmap string value) (t : list effect) :
  launch w = None -> newContext w = None ->
  scenario this spec_name w initialContext (Session ledger t)
  = scenario this spec_name w initialContext (Session ledger' t).
Proof.
  intros Hl Hn.
  unfold scenario. unfold_M. rewrite Hl, Hn. reflexivity.
Qed.

Lemma scenario_ledger_is_fresh_witness :
  scenario (Sample.engine (VBool false) true false) VUndefined
    (Sample.quiet_run [domcontentloaded Sample.home] None) VNull
    (Session (<["https://shop.test/95" := Sample.timing]> ∅) [])
  = scenario (Sample.engine (VBool false) true false) VUndefined
      (Sample.quiet_run [domcontentloaded Sample.home] None) VNull
      (Session ∅ []).
Proof.
  apply (scenario_ledger_is_fresh (Sample.engine (VBool false) true false) VUndefined
           (Sample.quiet_run [domcontentloaded Sample.home] None) VNull
           (<["https://shop.test/95" := Sample.timing]> ∅) ∅ []);
    reflexivity.
Defined.
